(** * OAuth proxy for the content editor: the request handler and its popup pages

    The repository has two versions of the serverless handler:
    [src/api/auth.js] (module [ApiAuth]) and [src/unnamed/part_000]
    (module [Part000]).  Both are embedded here, side by side, over a
    common model of the JavaScript values and of the platform calls they
    use.

    Conventions of the embedding.
    - A JavaScript string is a [string]: the bytes of its UTF-8 encoding.
    - A value read from parsed JSON is a [json]; a value that may be
      [undefined] is an [option json].  JSON numbers are modelled for the
      integers only.
    - [process.env] is the record [Env]; a variable that is not set is [None].
    - The handler awaits one network call.  It is a [Handler]: either it
      finishes at once, or it issues the call and continues with the result.
    - What the rendered page does in the popup window is a [Popup.Script]:
      the effects of loading it and its message listeners.  The handler
      writes text of the provider's answer into the inline script; the
      script is given for the texts that leave it as written, and [Page]
      adds texts that break it. *)

From Stdlib Require Import String Ascii List ZArith Bool Lia.
From Stdlib Require Import Numbers.DecimalString.
Import ListNotations.
Open Scope string_scope.
Set Warnings "-register-all".

(* ================================================================= *)
(** ** Strings *)

Module Str.

(** The double quote character, as a one-character string. *)
Definition dq : string := String (ascii_of_nat 34) EmptyString.

Definition is_empty (s : string) : bool :=
  match s with EmptyString => true | _ => false end.

(** [includes t s]: [t] occurs in [s] (JavaScript's [s.includes(t)]). *)
Fixpoint includes (t s : string) : bool :=
  if prefix t s then true
  else match s with
       | EmptyString => false
       | String _ r => includes t r
       end.

Fixpoint forallb (p : ascii -> bool) (s : string) : bool :=
  match s with
  | EmptyString => true
  | String c r => p c && forallb p r
  end.

Definition code (c : ascii) : nat := nat_of_ascii c.

Definition between (lo hi : nat) (c : ascii) : bool :=
  (lo <=? code c)%nat && (code c <=? hi)%nat.

Definition is_digit (c : ascii) : bool := between 48 57 c.
Definition is_upper (c : ascii) : bool := between 65 90 c.
Definition is_lower (c : ascii) : bool := between 97 122 c.
Definition is_alnum (c : ascii) : bool := is_digit c || is_upper c || is_lower c.

Definition one_of (cs : string) (c : ascii) : bool :=
  includes (String c EmptyString) cs.

Definition lower_hex_digit (n : nat) : ascii :=
  ascii_of_nat (if (n <? 10)%nat then 48 + n else 87 + n).
Definition upper_hex_digit (n : nat) : ascii :=
  ascii_of_nat (if (n <? 10)%nat then 48 + n else 55 + n).



(** [cut c s]: [s] up to its first [c], and what follows it, if any. *)
Fixpoint cut (c : ascii) (s : string) : string * option string :=
  match s with
  | EmptyString => (EmptyString, None)
  | String x r =>
      if Ascii.eqb x c then (EmptyString, Some r)
      else (String x (fst (cut c r)), snd (cut c r))
  end.

(** [fields c s]: the pieces of [s] between the occurrences of [c]. *)
Fixpoint fields (c : ascii) (s : string) : list string :=
  match s with
  | EmptyString => [EmptyString]
  | String x r =>
      if Ascii.eqb x c then EmptyString :: fields c r
      else match fields c r with
           | h :: t => String x h :: t
           | [] => [String x EmptyString]
           end
  end.

(** [c] does not occur in [s]. *)
Definition no_char (c : ascii) (s : string) : bool :=
  forallb (fun x => negb (Ascii.eqb x c)) s.

(** Value of a hexadecimal digit, of either case. *)
Definition hex_value (c : ascii) : option nat :=
  if is_digit c then Some (code c - 48)
  else if between 97 102 c then Some (code c - 87)
  else if between 65 70 c then Some (code c - 55)
  else None.

End Str.

(* ================================================================= *)
(** ** JavaScript values and the built-ins the handler calls *)

Module Js.

(** The result of [JSON.parse]. An object keeps its own properties in
    order; a property read takes the first entry of that name. *)
Inductive json : Type :=
| JNull
| JBool (b : bool)
| JNum (n : Z)
| JStr (s : string)
| JArr (xs : list json)
| JObj (props : list (string * json)).

(** A value that may be [undefined]. *)
Definition value : Type := option json.
Definition undefined : value := None.

(** An [Error] object, as [fetch], [Response.json] and the engine throw. *)
Record Error : Type := mkError { name : string; message : string }.

(** ToBoolean. *)
Definition truthy (v : value) : bool :=
  match v with
  | None => false
  | Some JNull => false
  | Some (JBool b) => b
  | Some (JNum n) => negb (n =? 0)%Z
  | Some (JStr s) => negb (Str.is_empty s)
  | Some (JArr _) => true
  | Some (JObj _) => true
  end.

(** [a || b]. *)
Definition or (a b : value) : value := if truthy a then a else b.

(** ToBoolean of a string that may be [null] ([searchParams.get],
    [process.env.X], [req.headers[h]]). *)
Definition truthy_string (s : option string) : bool :=
  match s with
  | None => false
  | Some s => negb (Str.is_empty s)
  end.

Fixpoint lookup {A : Type} (k : string) (l : list (string * A)) : option A :=
  match l with
  | [] => None
  | (k', v) :: r => if String.eqb k k' then Some v else lookup k r
  end.

(** [o.k] on a parsed JSON value: a [TypeError] on [null], the own
    property of an object, [undefined] otherwise (none of the names read
    by the handler is a property of a string, number, boolean or array). *)
Definition get (o : json) (k : string) : Error + value :=
  match o with
  | JNull =>
      inl (mkError "TypeError"
             ("Cannot read properties of null (reading '" ++ k ++ "')"))
  | JObj props => inr (lookup k props)
  | _ => inr undefined
  end.

(** [Number::toString] for the numbers [JNum] stands for: the integers
    that JavaScript prints in decimal digits, which are those up to
    [2^53 - 1] in absolute value.  No statement below depends on a number
    outside this range. *)
Definition number_to_string (n : Z) : string :=
  NilZero.string_of_int (Z.to_int n).

(** QuoteJSONString without the enclosing quotes: the escapes of
    [JSON.stringify] for one character. *)
Definition escape_char (c : ascii) : string :=
  let n := Str.code c in
  if (n =? 34)%nat then "\" ++ Str.dq
  else if (n =? 92)%nat then "\\"
  else if (n =? 8)%nat then "\b"
  else if (n =? 12)%nat then "\f"
  else if (n =? 10)%nat then "\n"
  else if (n =? 13)%nat then "\r"
  else if (n =? 9)%nat then "\t"
  else if (n <? 32)%nat then
    "\u00" ++ String (Str.lower_hex_digit (n / 16))
                (String (Str.lower_hex_digit (n mod 16)) EmptyString)
  else String c EmptyString.

Fixpoint escape (s : string) : string :=
  match s with
  | EmptyString => EmptyString
  | String c r => escape_char c ++ escape r
  end.

Definition quote (s : string) : string := Str.dq ++ escape s ++ Str.dq.

(** [JSON.stringify] on a parsed JSON value. *)
Fixpoint stringify (v : json) : string :=
  match v with
  | JNull => "null"
  | JBool true => "true"
  | JBool false => "false"
  | JNum n => number_to_string n
  | JStr s => quote s
  | JArr xs => "[" ++ String.concat "," (map stringify xs) ++ "]"
  | JObj props =>
      "{" ++ String.concat ","
               (map (fun p => quote (fst p) ++ ":" ++ stringify (snd p)) props)
          ++ "}"
  end.

(** [JSON.stringify(v)] where [v] may be [undefined]: then the result is
    [undefined] too. *)
Definition stringify_value (v : value) : option string :=
  option_map stringify v.

(** An object literal [{ k1: v1, ... }] as [JSON.stringify] sees it:
    properties whose value is [undefined] are left out. *)
Fixpoint defined (props : list (string * value)) : list (string * json) :=
  match props with
  | [] => []
  | (k, Some v) :: r => (k, v) :: defined r
  | (_, None) :: r => defined r
  end.

Definition object (props : list (string * value)) : json :=
  JObj (defined props).

Definition str (s : option string) : value := option_map JStr s.

(** ToString, as a template literal applies it to [${v}]. *)
Fixpoint to_string (v : json) : string :=
  match v with
  | JNull => "null"
  | JBool true => "true"
  | JBool false => "false"
  | JNum n => number_to_string n
  | JStr s => s
  | JArr xs =>
      String.concat ","
        (map (fun x => match x with JNull => EmptyString | _ => to_string x end) xs)
  | JObj _ => "[object Object]"
  end.

Definition template (v : value) : string :=
  match v with
  | None => "undefined"
  | Some v => to_string v
  end.

Definition template_string (s : option string) : string :=
  match s with
  | None => "undefined"
  | Some s => s
  end.

End Js.

(* ================================================================= *)
(** ** URLSearchParams *)

Module Url.

(** A [URLSearchParams] object: its list of name and value pairs. *)
Definition SearchParams : Type := list (string * string).

(** [params.get(name)]: the first value of that name, or [null]. *)
Definition get (name : string) (params : SearchParams) : option string :=
  Js.lookup name params.

(** [params.set(name, value)]: the first pair of that name takes the
    value and the others go; with no such pair, one is appended. *)
Fixpoint set (name value : string) (params : SearchParams) : SearchParams :=
  match params with
  | [] => [(name, value)]
  | (k, v) :: r =>
      if String.eqb k name
      then (k, value) :: filter (fun p => negb (String.eqb (fst p) name)) r
      else (k, v) :: set name value r
  end.

(** [new URLSearchParams({ k1: v1, ... })]: every value goes through
    ToString, so [undefined] becomes the text [undefined]. *)
Definition of_record (props : list (string * option string)) : SearchParams :=
  map (fun p => (fst p, Js.template_string (snd p))) props.

(** The application/x-www-form-urlencoded byte serializer. *)
Definition encode_char (c : ascii) : string :=
  if Str.is_alnum c || Str.one_of "*-._" c then String c EmptyString
  else if (Str.code c =? 32)%nat then "+"
  else String "%" (String (Str.upper_hex_digit (Str.code c / 16))
                     (String (Str.upper_hex_digit (Str.code c mod 16)) EmptyString)).

Fixpoint encode (s : string) : string :=
  match s with
  | EmptyString => EmptyString
  | String c r => encode_char c ++ encode r
  end.

(** The pairs of a name other than [name]. *)
Definition without (name : string) (params : SearchParams) : SearchParams :=
  filter (fun p => negb (String.eqb (fst p) name)) params.

(** [params.toString()], which [`${params}`] calls. *)
Definition to_string (params : SearchParams) : string :=
  String.concat "&" (map (fun p => encode (fst p) ++ "=" ++ encode (snd p)) params).

(** The characters the serializer writes: the ones it keeps, [+] for a
    space, and [%] with hexadecimal digits. *)
Definition written (c : ascii) : bool :=
  Str.is_alnum c || Str.one_of "*-._+%" c.

(** The reading side of the serializer, as the receiver of the query
    applies it to a name or a value: [+] is a space and [%XY] is the byte of
    that value.  [None] on a [%] that two hexadecimal digits do not follow. *)
Fixpoint decode (s : string) : option string :=
  match s with
  | EmptyString => Some EmptyString
  | String c r =>
      if (Str.code c =? 43)%nat then option_map (String (ascii_of_nat 32)) (decode r)
      else if (Str.code c =? 37)%nat then
        match r with
        | String a (String b r') =>
            match Str.hex_value a, Str.hex_value b with
            | Some h, Some l =>
                option_map (String (ascii_of_nat (16 * h + l))) (decode r')
            | _, _ => None
            end
        | _ => None
        end
      else option_map (String c) (decode r)
  end.

(** All of a list of results, or none. *)
Fixpoint all_of {A : Type} (l : list (option A)) : option (list A) :=
  match l with
  | [] => Some []
  | Some x :: r => option_map (cons x) (all_of r)
  | None :: _ => None
  end.

(** The reading side for a whole query: the fields between [&], the empty
    ones skipped, each cut at its first [=] and decoded. *)
Definition parse_field (field : string) : option (string * string) :=
  match decode (fst (Str.cut "=" field)),
        decode (match snd (Str.cut "=" field) with
                | Some v => v
                | None => EmptyString
                end) with
  | Some k, Some v => Some (k, v)
  | _, _ => None
  end.

Definition parse (query : string) : option SearchParams :=
  all_of (map parse_field
            (filter (fun field => negb (Str.is_empty field))
                    (Str.fields "&" query))).

End Url.

(* ================================================================= *)
(** ** The request, the response object and the awaited call *)

Module Process.

(** [process.env], for the variables the two versions read. *)
Record Env : Type := mkEnv {
  GITHUB_CLIENT_ID : option string;
  GITHUB_CLIENT_SECRET : option string;
  VERCEL_URL : option string;
  PRODUCTION_URL : option string
}.

Definition with_secret (env : Env) (secret : option string) : Env :=
  {| GITHUB_CLIENT_ID := GITHUB_CLIENT_ID env;
     GITHUB_CLIENT_SECRET := secret;
     VERCEL_URL := VERCEL_URL env;
     PRODUCTION_URL := PRODUCTION_URL env |}.

Definition with_vercel_url (env : Env) (host : option string) : Env :=
  {| GITHUB_CLIENT_ID := GITHUB_CLIENT_ID env;
     GITHUB_CLIENT_SECRET := GITHUB_CLIENT_SECRET env;
     VERCEL_URL := host;
     PRODUCTION_URL := PRODUCTION_URL env |}.

End Process.

Module Http.

(** [req]: the request target as received, and the header object. *)
Record Request : Type := mkRequest {
  url : string;
  headers : list (string * string)
}.

(** [req.headers[name]]. *)
Definition header (req : Request) (name : string) : option string :=
  Js.lookup name (headers req).

(** What the handler has made of [res] when it returns. *)
Record Response : Type := mkResponse {
  status_code : nat;
  headers_set : list (string * string);
  body : string
}.

(** [res] as the platform hands it over. *)
Definition res : Response :=
  {| status_code := 200; headers_set := []; body := EmptyString |}.

Definition setHeader (name value : string) (r : Response) : Response :=
  {| status_code := status_code r;
     headers_set := (name, value)
                      :: filter (fun p => negb (String.eqb (fst p) name)) (headers_set r);
     body := body r |}.

Definition status (code : nat) (r : Response) : Response :=
  {| status_code := code; headers_set := headers_set r; body := body r |}.

(** [res.send(text)], of the platform, for a string: the body, and the
    type [text/html] when the handler has set no [Content-Type].  The
    charset that the platform adds to the type is left out. *)
Definition send (text : string) (r : Response) : Response :=
  {| status_code := status_code r;
     headers_set :=
       match Js.lookup "Content-Type" (headers_set r) with
       | Some _ => headers_set r
       | None => ("Content-Type", "text/html") :: headers_set r
       end;
     body := text |}.

(** [res.redirect(code, target)]: the status and a [Location] header. *)
Definition redirect (code : nat) (target : string) (r : Response) : Response :=
  setHeader "Location" target (status code r).

Definition getHeader (name : string) (r : Response) : option string :=
  Js.lookup name (headers_set r).

(** The arguments of the one [fetch] call. *)
Record FetchCall : Type := mkFetchCall {
  fetch_url : string;
  fetch_method : string;
  fetch_headers : list (string * string);
  fetch_body : string
}.

(** How [await fetch(...)] followed by [await tokenRes.json()] ends. *)
Inductive FetchResult : Type :=
| Rejected (err : Js.Error)     (* fetch rejects: no answer from the network *)
| NotJson (err : Js.Error)      (* json() rejects: the answer is not JSON *)
| Parsed (tokenData : Js.json). (* the parsed answer *)

(** A line of [console.error]. *)
Definition LogLine : Type := (string * Js.Error)%type.

(** How one invocation of the handler ends: a response was sent, or an
    exception left the handler. *)
Inductive Outcome : Type :=
| Sent (r : Response) (log : list LogLine)
| Threw (err : Js.Error).

(** The handler up to its only [await]. *)
Inductive Handler : Type :=
| Return (o : Outcome)
| Await (call : FetchCall) (k : FetchResult -> Outcome).

(** Running a handler with the result the network gives. *)
Definition complete (h : Handler) (result : FetchResult) : Outcome :=
  match h with
  | Return o => o
  | Await _ k => k result
  end.

(** The handler went on to the exchange: the request carried a code. *)
Definition awaits (h : Handler) : bool :=
  match h with
  | Return _ => false
  | Await _ _ => true
  end.

(** Two runs answer the browser alike, whatever the network gives. *)
Definition same_response (h1 h2 : Handler) : Prop :=
  match h1, h2 with
  | Return o1, Return o2 => o1 = o2
  | Await _ k1, Await _ k2 => forall result, k1 result = k2 result
  | _, _ => False
  end.

Definition response_of (o : Outcome) : option Response :=
  match o with
  | Sent r _ => Some r
  | Threw _ => None
  end.

Definition status_of (o : Outcome) : option nat :=
  option_map status_code (response_of o).

Definition body_of (o : Outcome) : option string :=
  option_map body (response_of o).

(** The target of a redirect answered at once. *)
Definition location_of (h : Handler) : option string :=
  match h with
  | Return (Sent r _) => getHeader "Location" r
  | _ => None
  end.

Definition call_of (h : Handler) : option FetchCall :=
  match h with
  | Return _ => None
  | Await c _ => Some c
  end.

End Http.

(* ================================================================= *)
(** ** The popup window *)

Module Popup.

(** A [message] event as the listener sees it. *)
Record MessageEvent : Type := mkEvent {
  data : string;
  origin : string;
  source : nat          (* which window sent it *)
}.

Inductive Effect : Type :=
| PostMessage (message targetOrigin : string) (* window.opener.postMessage *)
| Close                                       (* window.close() *)
| RemoveEventListener                         (* window.removeEventListener *)
| Uncaught.                                   (* an uncaught error *)

(** The behaviour of a page's script: what loading it does, and the
    [message] listeners it leaves registered. *)
Record Script : Type := mkScript {
  on_load : list Effect;
  listeners : list (MessageEvent -> list Effect)
}.

(** [window.opener.postMessage(m, t)]; [opener] tells whether
    [window.opener] is a window or [null]. *)
Definition opener_postMessage (opener : bool) (m t : string) : list Effect :=
  if opener then [PostMessage m t] else [Uncaught].

(** [window.opener && window.opener.postMessage(m, t)]. *)
Definition opener_and_postMessage (opener : bool) (m t : string) : list Effect :=
  if opener then [PostMessage m t] else [].

Definition dispatch (s : Script) (e : MessageEvent) : list Effect :=
  flat_map (fun listener => listener e) (listeners s).

Definition closes (l : list Effect) : bool :=
  existsb (fun x => match x with Close => true | _ => false end) l.

Definition removes (l : list Effect) : bool :=
  existsb (fun x => match x with RemoveEventListener => true | _ => false end) l.

(** The events of the popup, one after the other, go to the listeners
    that are registered; a listener that removes itself hears no more, and
    a closed window receives nothing. *)
Fixpoint deliver (registered : list (MessageEvent -> list Effect))
    (events : list MessageEvent) : list Effect :=
  match events with
  | [] => []
  | e :: later =>
      let effects := flat_map (fun listener => listener e) registered in
      effects
        ++ (if closes effects then []
            else deliver (if removes effects then [] else registered) later)
  end.

(** The effects of the page over the popup's life: the load, then the
    events it receives, unless it closed itself. *)
Definition run (s : Script) (events : list MessageEvent) : list Effect :=
  on_load s ++ (if closes (on_load s) then [] else deliver (listeners s) events).

(** The string value of a string literal, from the characters [s] between
    its quotes [q].  Covered: ordinary characters, and the escapes for a
    quote, an apostrophe, a backslash, backspace, form feed, line feed,
    carriage return, tab and [\u00XX] below 128.  [None] for everything
    else: a quote [q] or a line terminator inside (the text is then not
    one literal), and the escapes not listed. *)
Fixpoint literal_value (q : ascii) (s : string) : option string :=
  match s with
  | EmptyString => Some EmptyString
  | String c r =>
      if Ascii.eqb c q then None
      else if (Str.code c =? 10)%nat || (Str.code c =? 13)%nat then None
      else if (Str.code c =? 92)%nat then
        match r with
        | String e r' =>
            let continue (x : nat) :=
              option_map (String (ascii_of_nat x)) (literal_value q r') in
            if (Str.code e =? 34)%nat then continue 34
            else if (Str.code e =? 39)%nat then continue 39
            else if (Str.code e =? 92)%nat then continue 92
            else if (Str.code e =? 98)%nat then continue 8
            else if (Str.code e =? 102)%nat then continue 12
            else if (Str.code e =? 110)%nat then continue 10
            else if (Str.code e =? 114)%nat then continue 13
            else if (Str.code e =? 116)%nat then continue 9
            else if (Str.code e =? 117)%nat then
              match r' with
              | String a (String b (String x (String y r''))) =>
                  match Str.hex_value a, Str.hex_value b,
                        Str.hex_value x, Str.hex_value y with
                  | Some 0, Some 0, Some h, Some l =>
                      if (h <? 8)%nat
                      then option_map (String (ascii_of_nat (16 * h + l)))
                                      (literal_value q r'')
                      else None
                  | _, _, _, _ => None
                  end
              | _ => None
              end
            else None
        | EmptyString => None
        end
      else option_map (String c) (literal_value q r)
  end.

(** What follows the quote [q] that ends the literal whose text starts
    [s], read as [literal_value] reads it; [None] when no quote ends it
    within what [literal_value] covers. *)
Fixpoint literal_rest (q : ascii) (s : string) : option string :=
  match s with
  | EmptyString => None
  | String c r =>
      if Ascii.eqb c q then Some r
      else if (Str.code c =? 10)%nat || (Str.code c =? 13)%nat then None
      else if (Str.code c =? 92)%nat then
        match r with
        | String e r' =>
            if (Str.code e =? 117)%nat then
              match r' with
              | String a (String b (String x (String y r''))) =>
                  match Str.hex_value a, Str.hex_value b,
                        Str.hex_value x, Str.hex_value y with
                  | Some 0, Some 0, Some h, Some l =>
                      if (h <? 8)%nat then literal_rest q r'' else None
                  | _, _, _, _ => None
                  end
              | _ => None
              end
            else if Str.one_of "bfnrt\'" e || (Str.code e =? 34)%nat
                 then literal_rest q r'
                 else None
        | EmptyString => None
        end
      else literal_rest q r
  end.

(** Text put into an inline script, or into the page, reaches the script
    as written when it has no [<]: no tag can start in it.  The pages
    below are modelled for such text only. *)
Definition inert (text : string) : bool :=
  Str.forallb (fun c => negb (Str.code c =? 60)%nat) text.

(** The characters that stand for themselves in a literal quoted by [q]. *)
Definition raw (q c : ascii) : bool :=
  negb (Ascii.eqb c q) && negb (Str.code c =? 10)%nat
  && negb (Str.code c =? 13)%nat && negb (Str.code c =? 92)%nat.




Definition posts (x : Effect) : bool :=
  match x with
  | PostMessage _ _ => true
  | _ => false
  end.

End Popup.

(* ================================================================= *)
(** ** [src/api/auth.js] *)

Module ApiAuth.

(** The three ways the [try] block ends. *)
Inductive Exchange : Type :=
| Failure (error : Js.value)            (* [tokenData.error] is truthy *)
| Success (access_token : Js.value)     (* otherwise *)
| Crashed (err : Js.Error).             (* something threw *)

Definition classify (result : Http.FetchResult) : Exchange :=
  match result with
  | Http.Rejected err => Crashed err
  | Http.NotJson err => Crashed err
  | Http.Parsed tokenData =>
      match Js.get tokenData "error" with
      | inl err => Crashed err
      | inr error =>
          if Js.truthy error then Failure error
          else match Js.get tokenData "access_token" with
               | inl err => Crashed err
               | inr access_token => Success access_token
               end
      end
  end.

(** The text interpolated into the error page:
    [JSON.stringify(tokenData.error)]. *)
Definition error_literal (error : Js.value) : string :=
  Js.template_string (Js.stringify_value error).

(** The text interpolated into the success page:
    [JSON.stringify({ token: tokenData.access_token, provider: 'github' })]. *)
Definition success_literal (access_token : Js.value) : string :=
  Js.stringify (Js.object [("token", access_token);
                           ("provider", Some (Js.JStr "github"))]).

Definition error_page (error : Js.value) : string :=
  "
        <script>
          window.opener.postMessage(
            'authorization:github:error:" ++ error_literal error ++ "',
            '*'
          );
        </script>
      ".

Definition success_page (access_token : Js.value) : string :=
  "
      <!doctype html>
      <html><body>
        <script>
          (function() {
            function receiveMessage(e) {
              window.opener.postMessage(
                'authorization:github:success:" ++ success_literal access_token ++ "',
                e.origin
              );
            }
            window.addEventListener('message', receiveMessage, false);
            window.opener.postMessage('authorizing:github', '*');
          })();
        </script>
        <p>Authorizing… you can close this window.</p>
      </body></html>
    ".

(** The [catch] block. *)
Definition catch (err : Js.Error) : Http.Outcome :=
  Http.Sent
    (Http.send "Authentication failed. Please try again." (Http.status 500 Http.res))
    [("OAuth error:", err)].

Definition render (x : Exchange) : Http.Outcome :=
  match x with
  | Failure error =>
      Http.Sent (Http.send (error_page error) (Http.status 401 Http.res)) []
  | Success access_token =>
      Http.Sent
        (Http.send (success_page access_token)
           (Http.status 200 (Http.setHeader "Content-Type" "text/html" Http.res)))
        []
  | Crashed err => catch err
  end.

(** What the script of the page sent does in the popup, when the text
    written between the apostrophes has no [<] and is the text of one
    literal; [None] otherwise: the script is then not the one written
    here. *)
Definition script (opener : bool) (x : Exchange) : option Popup.Script :=
  match x with
  | Failure error =>
      if Popup.inert (error_literal error) then
        match Popup.literal_value "'"
                ("authorization:github:error:" ++ error_literal error) with
        | Some message =>
            Some {| Popup.on_load := Popup.opener_postMessage opener message "*";
                    Popup.listeners := [] |}
        | None => None
        end
      else None
  | Success access_token =>
      if Popup.inert (success_literal access_token) then
        match Popup.literal_value "'"
                ("authorization:github:success:" ++ success_literal access_token) with
        | Some message =>
            let receiveMessage (e : Popup.MessageEvent) :=
              Popup.opener_postMessage opener message (Popup.origin e) in
            Some {| Popup.on_load :=
                      Popup.opener_postMessage opener "authorizing:github" "*";
                    Popup.listeners := [receiveMessage] |}
        | None => None
        end
      else None
  | Crashed _ => Some {| Popup.on_load := []; Popup.listeners := [] |}
  end.

Section Handler.

(** [new URL(input, base).searchParams], of the platform; [None] when
    the constructor throws. *)
Variable URL_searchParams : string -> string -> option Url.SearchParams.
Variable env : Process.Env.
(** What [crypto.randomUUID()] returns in this invocation. *)
Variable crypto_randomUUID : string.

Definition GITHUB_CLIENT_ID : option string := Process.GITHUB_CLIENT_ID env.
Definition GITHUB_CLIENT_SECRET : option string := Process.GITHUB_CLIENT_SECRET env.
Definition ORIGIN : string :=
  if Js.truthy_string (Process.VERCEL_URL env)
  then "https://" ++ Js.template_string (Process.VERCEL_URL env)
  else "https://renso-foundation.vercel.app".

Definition authorize_params (state : option string) : Url.SearchParams :=
  Url.of_record
    [("client_id", GITHUB_CLIENT_ID);
     ("scope", Some "repo,user");
     ("state", Some (if Js.truthy_string state
                     then Js.template_string state
                     else crypto_randomUUID));
     ("redirect_uri", Some (ORIGIN ++ "/api/auth"))].

Definition token_request (code : string) : Http.FetchCall :=
  {| Http.fetch_url := "https://github.com/login/oauth/access_token";
     Http.fetch_method := "POST";
     Http.fetch_headers :=
       [("Content-Type", "application/json"); ("Accept", "application/json")];
     Http.fetch_body :=
       Js.stringify
         (Js.object [("client_id", Js.str GITHUB_CLIENT_ID);
                     ("client_secret", Js.str GITHUB_CLIENT_SECRET);
                     ("code", Some (Js.JStr code))]) |}.

Definition handler (req : Http.Request) : Http.Handler :=
  match URL_searchParams (Http.url req) ORIGIN with
  | None => Http.Return (Http.Threw (Js.mkError "TypeError" "Invalid URL"))
  | Some searchParams =>
      let code := Url.get "code" searchParams in
      let state := Url.get "state" searchParams in
      if negb (Js.truthy_string code) then
        Http.Return
          (Http.Sent
             (Http.redirect 302
                ("https://github.com/login/oauth/authorize?"
                   ++ Url.to_string (authorize_params state))
                Http.res)
             [])
      else
        Http.Await (token_request (Js.template_string code))
                   (fun result => render (classify result))
  end.

End Handler.

End ApiAuth.

(* ================================================================= *)
(** ** [src/unnamed/part_000] *)

Module Part000.

Inductive Exchange : Type :=
| Failure (text : Js.value)  (* [tokenData.error_description || tokenData.error] *)
| Success (token : Js.value) (* [tokenData.access_token] *)
| Crashed (err : Js.Error).

Definition classify (result : Http.FetchResult) : Exchange :=
  match result with
  | Http.Rejected err => Crashed err
  | Http.NotJson err => Crashed err
  | Http.Parsed tokenData =>
      match Js.get tokenData "error" with
      | inl err => Crashed err
      | inr error =>
          if Js.truthy error then
            match Js.get tokenData "error_description" with
            | inl err => Crashed err
            | inr error_description => Failure (Js.or error_description error)
            end
          else match Js.get tokenData "access_token" with
               | inl err => Crashed err
               | inr access_token => Success access_token
               end
      end
  end.

(** [JSON.stringify(token)], as interpolated. *)
Definition token_literal (token : Js.value) : string :=
  Js.template_string (Js.stringify_value token).

Definition error_page (text : Js.value) : string :=
  "
        <!doctype html><html><body><script>
          window.opener && window.opener.postMessage(
            'authorization:github:error:' + JSON.stringify(" ++ Str.dq ++ Js.template text ++ Str.dq ++ "),
            '*'
          );
          window.close();
        </script><p>Auth error: " ++ Js.template text ++ "</p></body></html>
      ".

Definition success_page (token : Js.value) : string :=
  "
      <!doctype html><html><body><script>
        (function() {
          const token = " ++ token_literal token ++ ";
          const msg = 'authorization:github:success:' + JSON.stringify({ token, provider: 'github' });
          function receiveMessage(e) {
            window.opener.postMessage(msg, e.origin);
          }
          window.addEventListener('message', receiveMessage, false);
          window.opener && window.opener.postMessage('authorizing:github', '*');
        })();
      </script><p>Authorizing… you may close this window.</p></body></html>
    ".

Definition failed_page (err : Js.Error) : string :=
  "
      <!doctype html><html><body><p>Authentication failed: " ++ Js.message err ++ "</p></body></html>
    ".

(** The [catch] block. *)
Definition catch (err : Js.Error) : Http.Outcome :=
  Http.Sent
    (Http.send (failed_page err)
       (Http.status 500 (Http.setHeader "Content-Type" "text/html" Http.res)))
    [("OAuth error:", err)].

Definition render (x : Exchange) : Http.Outcome :=
  match x with
  | Failure text =>
      Http.Sent
        (Http.send (error_page text)
           (Http.status 401 (Http.setHeader "Content-Type" "text/html" Http.res)))
        []
  | Success token =>
      Http.Sent
        (Http.send (success_page token)
           (Http.status 200 (Http.setHeader "Content-Type" "text/html" Http.res)))
        []
  | Crashed err => catch err
  end.

(** The value of [token] in the page: the literal [JSON.stringify] wrote
    reads back as the value it was written from.  Modelled for the
    primitive values and [undefined]. *)
Definition primitive (v : Js.value) : bool :=
  match v with
  | Some (Js.JArr _) => false
  | Some (Js.JObj _) => false
  | _ => true
  end.

(** What the script of the page sent does in the popup, when the text
    written into it has no [<] and, for the error page, is the text of one
    literal between the double quotes; [None] otherwise: the script is then
    not the one written here. *)
Definition script (opener : bool) (x : Exchange) : option Popup.Script :=
  match x with
  | Failure text =>
      if Popup.inert (Js.template text) then
        match Popup.literal_value (ascii_of_nat 34) (Js.template text) with
        | Some description =>
            Some {| Popup.on_load :=
                      Popup.opener_and_postMessage opener
                        ("authorization:github:error:" ++ Js.quote description) "*"
                      ++ [Popup.Close];
                    Popup.listeners := [] |}
        | None => None
        end
      else None
  | Success token =>
      if Popup.inert (token_literal token) && primitive token then
        let msg := "authorization:github:success:"
                     ++ Js.stringify (Js.object [("token", token);
                                                 ("provider", Some (Js.JStr "github"))]) in
        let receiveMessage (e : Popup.MessageEvent) :=
          Popup.opener_postMessage opener msg (Popup.origin e) in
        Some {| Popup.on_load :=
                  Popup.opener_and_postMessage opener "authorizing:github" "*";
                Popup.listeners := [receiveMessage] |}
      else None
  | Crashed err =>
      if Popup.inert (Js.message err)
      then Some {| Popup.on_load := []; Popup.listeners := [] |}
      else None
  end.

Section Handler.

(** [new URL(input, base).searchParams], of the platform; [None] when
    the constructor throws. *)
Variable URL_searchParams : string -> string -> option Url.SearchParams.
Variable env : Process.Env.

Definition GITHUB_CLIENT_ID : option string := Process.GITHUB_CLIENT_ID env.
Definition GITHUB_CLIENT_SECRET : option string := Process.GITHUB_CLIENT_SECRET env.
Definition ORIGIN : string :=
  if Js.truthy_string (Process.PRODUCTION_URL env)
  then Js.template_string (Process.PRODUCTION_URL env)
  else "https://renso-foundation.vercel.app".

Definition host (req : Http.Request) : string :=
  if Js.truthy_string (Http.header req "x-forwarded-host")
  then Js.template_string (Http.header req "x-forwarded-host")
  else if Js.truthy_string (Http.header req "host")
       then Js.template_string (Http.header req "host")
       else EmptyString.

Definition proto (req : Http.Request) : string :=
  if Js.truthy_string (Http.header req "x-forwarded-proto")
  then Js.template_string (Http.header req "x-forwarded-proto")
  else "https".

Definition baseUrl (req : Http.Request) : string :=
  proto req ++ "://" ++ host req.

Definition CALLBACK : string := ORIGIN ++ "/api/auth".

Definition authorize_params (state : option string) : Url.SearchParams :=
  let params :=
    Url.of_record
      [("client_id", GITHUB_CLIENT_ID);
       ("scope", Some "repo,user");
       ("redirect_uri", Some CALLBACK)] in
  if Js.truthy_string state
  then Url.set "state" (Js.template_string state) params
  else params.

Definition token_request (code : string) : Http.FetchCall :=
  {| Http.fetch_url := "https://github.com/login/oauth/access_token";
     Http.fetch_method := "POST";
     Http.fetch_headers :=
       [("Content-Type", "application/json"); ("Accept", "application/json")];
     Http.fetch_body :=
       Js.stringify
         (Js.object [("client_id", Js.str GITHUB_CLIENT_ID);
                     ("client_secret", Js.str GITHUB_CLIENT_SECRET);
                     ("code", Some (Js.JStr code));
                     ("redirect_uri", Some (Js.JStr CALLBACK))]) |}.

Definition handler (req : Http.Request) : Http.Handler :=
  match URL_searchParams (Http.url req) (baseUrl req) with
  | None => Http.Return (Http.Threw (Js.mkError "TypeError" "Invalid URL"))
  | Some searchParams =>
      let code := Url.get "code" searchParams in
      let state := Url.get "state" searchParams in
      if negb (Js.truthy_string code) then
        Http.Return
          (Http.Sent
             (Http.redirect 302
                ("https://github.com/login/oauth/authorize?"
                   ++ Url.to_string (authorize_params state))
                Http.res)
             [])
      else
        Http.Await (token_request (Js.template_string code))
                   (fun result => render (classify result))
  end.

End Handler.

End Part000.

(* ================================================================= *)
(** ** The site builder that follows in [src/api/auth.js]: [esc] and
    [parseFrontmatter] *)

Module Build.

Definition LF : ascii := ascii_of_nat 10.

(** [s.replace(/c/g, new)] for one character [c] and a replacement with
    no [$] in it. *)
Fixpoint replace_all (c : ascii) (new : string) (s : string) : string :=
  match s with
  | EmptyString => EmptyString
  | String x r =>
      (if Ascii.eqb x c then new else String x EmptyString) ++ replace_all c new r
  end.

(** [String(str)], after the default [''] of the parameter has stood in
    for [undefined]. *)
Definition text_of (str : Js.value) : string :=
  match str with
  | None => EmptyString
  | Some v => Js.to_string v
  end.

Definition esc (str : Js.value) : string :=
  replace_all (ascii_of_nat 34) "&quot;"
    (replace_all ">" "&gt;"
       (replace_all "<" "&lt;"
          (replace_all "&" "&amp;" (text_of str)))).

(** The characters [esc] rewrites. *)
Definition special (c : ascii) : bool :=
  Ascii.eqb c "&" || Ascii.eqb c "<" || Ascii.eqb c ">"
  || Ascii.eqb c (ascii_of_nat 34).

(** What [esc] writes for one character. *)
Definition reference (c : ascii) : string :=
  if Ascii.eqb c "&" then "&amp;"
  else if Ascii.eqb c "<" then "&lt;"
  else if Ascii.eqb c ">" then "&gt;"
  else if Ascii.eqb c (ascii_of_nat 34) then "&quot;"
  else String c EmptyString.

(** The reading side of [esc]: the four references it writes, resolved
    as a browser resolves them; other text stands for itself. *)
Fixpoint unesc (s : string) : string :=
  match s with
  | String "&" (String "a" (String "m" (String "p" (String ";" r)))) =>
      String "&" (unesc r)
  | String "&" (String "l" (String "t" (String ";" r))) => String "<" (unesc r)
  | String "&" (String "g" (String "t" (String ";" r))) => String ">" (unesc r)
  | String "&" (String "q" (String "u" (String "o" (String "t" (String ";" r))))) =>
      String (ascii_of_nat 34) (unesc r)
  | String c r => String c (unesc r)
  | EmptyString => EmptyString
  end.

(** *** [String.prototype.trim] *)

(** The WhiteSpace and LineTerminator code points, by the bytes of their
    UTF-8 encoding: tab to carriage return and the space; U+00A0; U+1680;
    U+2000 to U+200A, U+2028, U+2029, U+202F; U+205F; U+3000; U+FEFF. *)
Definition space1 (a : ascii) : bool :=
  Str.between 9 13 a || (Str.code a =? 32)%nat.

Definition space2 (a b : ascii) : bool :=
  (Str.code a =? 194)%nat && (Str.code b =? 160)%nat.

Definition space3 (a b c : ascii) : bool :=
  ((Str.code a =? 225)%nat && (Str.code b =? 154)%nat && (Str.code c =? 128)%nat)
  || ((Str.code a =? 226)%nat && (Str.code b =? 128)%nat
      && (Str.between 128 138 c || Str.between 168 169 c || (Str.code c =? 175)%nat))
  || ((Str.code a =? 226)%nat && (Str.code b =? 129)%nat && (Str.code c =? 159)%nat)
  || ((Str.code a =? 227)%nat && (Str.code b =? 128)%nat && (Str.code c =? 128)%nat)
  || ((Str.code a =? 239)%nat && (Str.code b =? 187)%nat && (Str.code c =? 191)%nat).

Fixpoint trimStart (s : string) : string :=
  match s with
  | String a r =>
      if space1 a then trimStart r
      else match r with
           | String b r' =>
               if space2 a b then trimStart r'
               else match r' with
                    | String c r'' => if space3 a b c then trimStart r'' else s
                    | EmptyString => s
                    end
           | EmptyString => s
           end
  | EmptyString => s
  end.

(** [s] is made of white space only. *)
Fixpoint blank (s : string) : bool :=
  match s with
  | String a r =>
      if space1 a then blank r
      else match r with
           | String b r' =>
               if space2 a b then blank r'
               else match r' with
                    | String c r'' => space3 a b c && blank r''
                    | EmptyString => false
                    end
           | EmptyString => false
           end
  | EmptyString => true
  end.

Fixpoint trimEnd (s : string) : string :=
  match s with
  | String a r => if blank s then EmptyString else String a (trimEnd r)
  | EmptyString => EmptyString
  end.

Definition trim (s : string) : string := trimEnd (trimStart s).

(** *** [parseFrontmatter] *)

Fixpoint drop (n : nat) (s : string) : string :=
  match n, s with
  | S n', String _ r => drop n' r
  | _, _ => s
  end.

(** The first occurrence of [t] in [s]: what stands before it and what
    stands after it. *)
Fixpoint find (t s : string) : option (string * string) :=
  if prefix t s then Some (EmptyString, drop (String.length t) s)
  else match s with
       | EmptyString => None
       | String c r =>
           match find t r with
           | Some (before, after) => Some (String c before, after)
           | None => None
           end
       end.

Definition fence : string := "---".

(** [content.match(/^---\n([\s\S]*?)\n---/)]: the group, when there is a
    match.  The lazy group ends at the first line break that three dashes
    follow. *)
Definition frontmatter (content : string) : option string :=
  if prefix (fence ++ String LF EmptyString) content
  then option_map fst (find (String LF fence) (drop 4 content))
  else None.

(** [content.replace(/^---[\s\S]*?---\n?/, '')]: the text from the start to
    the first three dashes after the opening ones goes, with a line break
    that follows. *)
Definition without_frontmatter (content : string) : string :=
  if prefix fence content then
    match find fence (drop 3 content) with
    | Some (_, String c rest) => if Ascii.eqb c LF then rest else String c rest
    | Some (_, EmptyString) => EmptyString
    | None => content
    end
  else content.

(** The object [data]: its own properties, each name once.  What
    [Object.prototype] adds to a read is in [read] below. *)
Definition Data : Type := list (string * string).

(** The names every plain object inherits from [Object.prototype]. *)
Definition inherited (k : string) : bool :=
  existsb (String.eqb k)
    ["constructor"; "hasOwnProperty"; "isPrototypeOf"; "propertyIsEnumerable";
     "toLocaleString"; "toString"; "valueOf"; "__proto__";
     "__defineGetter__"; "__defineSetter__"; "__lookupGetter__";
     "__lookupSetter__"].

(** [data[k]] or [data.k]: the own property; else [undefined], unless
    the name is inherited: the value is then a function or the
    prototype, which are no text ([None]). *)
Definition read (data : Data) (k : string) : option Js.value :=
  match Js.lookup k data with
  | Some v => Some (Some (Js.JStr v))
  | None => if inherited k then None else Some Js.undefined
  end.

(** [data[k] = v], for a string [v].  On a plain object the name
    [__proto__] is the accessor of the prototype, which lets a string go. *)
Definition assign (k v : string) (data : Data) : Data :=
  if String.eqb k "__proto__" then data
  else (k, v) :: filter (fun p => negb (String.eqb (fst p) k)) data.

(** The body of the [forEach]: the name and the value a line sets, if it
    sets one. *)
Definition entry (line : string) : option (string * string) :=
  match Str.fields ":" line with
  | key :: rest =>
      if negb (Str.is_empty key) && negb (match rest with [] => true | _ => false end)
      then Some (trim key, trim (String.concat ":" rest))
      else None
  | [] => None
  end.

Definition set_line (data : Data) (line : string) : Data :=
  match entry line with
  | Some (k, v) => assign k v data
  | None => data
  end.

Definition parseFrontmatter (content : string) : Data :=
  match frontmatter content with
  | None => []
  | Some block =>
      assign "_body" (trim (without_frontmatter content))
        (fold_left set_line (Str.fields LF block) [])
  end.

(** A line of the frontmatter with no line break and no three dashes in
    it. *)
Definition plain_line (l : string) : bool :=
  Str.no_char LF l && match find fence l with None => true | Some _ => false end.

(** The line sets the name [k]. *)
Definition sets (k : string) (line : string) : bool :=
  match entry line with
  | Some (k', _) => String.eqb k' k
  | None => false
  end.

(** A file of the content folder as the editor writes it: the fence, one
    line for each field, the fence, and the body. *)
Definition document (lines : list string) (body : string) : string :=
  fence ++ String LF (String.concat (String LF EmptyString) lines)
    ++ String LF fence ++ String LF body.

(** *** [readDataFiles] *)

(** [f.endsWith(suffix)]. *)
Definition endsWith (suffix f : string) : bool :=
  (String.length suffix <=? String.length f)%nat
  && String.eqb (drop (String.length f - String.length suffix) f) suffix.

(** A folder of [_data] as [fs] shows it: [None] when it does not exist,
    else its entries in the order of [readdirSync], each with what
    [readFileSync] gives for it ([None] when it throws, as for a
    directory). *)
Definition Folder : Type := option (list (string * option string)).

(** What a file is read into. *)
Inductive Item : Type :=
| Json (v : Js.json)
| Markdown (data : Data).

Definition wanted (f : string) : bool :=
  endsWith ".json" f || endsWith ".md" f.

Section ReadDataFiles.

(** [JSON.parse], of the platform; [None] when it throws. *)
Variable JSON_parse : string -> option Js.json.

(** The function given to [map]; [None] when it throws. *)
Definition read_file (file : string * option string) : option Item :=
  match snd file with
  | None => None
  | Some raw =>
      if endsWith ".json" (fst file) then option_map Json (JSON_parse raw)
      else Some (Markdown (parseFrontmatter raw))
  end.

(** [None] when an exception leaves the function. *)
Definition readDataFiles (folder : Folder) : option (list Item) :=
  match folder with
  | None => Some []
  | Some files =>
      Url.all_of (map read_file (filter (fun file => wanted (fst file)) files))
  end.

End ReadDataFiles.

End Build.

(* ================================================================= *)
(** ** The two versions, side by side *)

Module Both.

Inductive Version : Type :=
| api_auth    (* src/api/auth.js *)
| part_000.   (* src/unnamed/part_000 *)

Definition handler (v : Version)
    (URL_searchParams : string -> string -> option Url.SearchParams)
    (env : Process.Env) (crypto_randomUUID : string) (req : Http.Request)
  : Http.Handler :=
  match v with
  | api_auth => ApiAuth.handler URL_searchParams env crypto_randomUUID req
  | part_000 => Part000.handler URL_searchParams env req
  end.

(** The script of the page sent for a result of the exchange. *)
Definition script (v : Version) (opener : bool) (result : Http.FetchResult)
  : option Popup.Script :=
  match v with
  | api_auth => ApiAuth.script opener (ApiAuth.classify result)
  | part_000 => Part000.script opener (Part000.classify result)
  end.

(** The answer on the callback path, for a result of the exchange. *)
Definition answer (v : Version) (result : Http.FetchResult) : Http.Outcome :=
  match v with
  | api_auth => ApiAuth.render (ApiAuth.classify result)
  | part_000 => Part000.render (Part000.classify result)
  end.

(** The query parameters the handler reads for a request. *)
Definition searchParams (v : Version)
    (URL_searchParams : string -> string -> option Url.SearchParams)
    (env : Process.Env) (req : Http.Request) : option Url.SearchParams :=
  match v with
  | api_auth => URL_searchParams (Http.url req) (ApiAuth.ORIGIN env)
  | part_000 => URL_searchParams (Http.url req) (Part000.baseUrl req)
  end.


Definition error_page (v : Version) (x : Js.value) : string :=
  match v with
  | api_auth => ApiAuth.error_page x
  | part_000 => Part000.error_page x
  end.

(** The parameters of the redirect, for the state the request carries. *)
Definition authorize_params (v : Version) (env : Process.Env)
    (crypto_randomUUID : string) (state : option string) : Url.SearchParams :=
  match v with
  | api_auth => ApiAuth.authorize_params env crypto_randomUUID state
  | part_000 => Part000.authorize_params env state
  end.

(** The callback URL of the redirect step. *)
Definition callback (v : Version) (env : Process.Env) : string :=
  match v with
  | api_auth => ApiAuth.ORIGIN env ++ "/api/auth"
  | part_000 => Part000.CALLBACK env
  end.

Definition success_page (v : Version) (access_token : Js.value) : string :=
  match v with
  | api_auth => ApiAuth.success_page access_token
  | part_000 => Part000.success_page access_token
  end.

(** How a text of the provider's answer stands in the message of the
    page: as it is in [src/api/auth.js], whose page reads the text of
    [JSON.stringify] as a string literal; with its JSON escapes in
    [src/unnamed/part_000], whose page calls [JSON.stringify] on it once
    more. *)
Definition written (v : Version) (text : string) : string :=
  match v with
  | api_auth => text
  | part_000 => Js.escape text
  end.

(** The tokens that leave the script of the success page as the handler
    wrote it: no [<], and for [src/api/auth.js] no apostrophe, which would
    end its literal. *)
Definition fits (v : Version) (tok : string) : bool :=
  Popup.inert tok
  && match v with
     | api_auth => Str.no_char "'" tok
     | part_000 => true
     end.


End Both.

(* ================================================================= *)
(** ** Pages whose script is broken by the text written into it *)

Module Page.

(** A script that does not parse: the error is reported and nothing of
    the script runs. *)
Definition unparsed : Popup.Script :=
  {| Popup.on_load := [Popup.Uncaught]; Popup.listeners := [] |}.

(** A character that starts a name other than the operators [in] and
    [instanceof]: a letter other than [i], or [_] or [$]. *)
Definition name_start (c : ascii) : bool :=
  (Str.is_upper c || Str.is_lower c || Str.one_of "_$" c)
  && negb (Ascii.eqb c "i").

(** The string literal of the script that the result is written into:
    its quote, and the text between the quotes. *)
Definition literal (v : Both.Version) (result : Http.FetchResult)
  : option (ascii * string) :=
  match v with
  | Both.api_auth =>
      match ApiAuth.classify result with
      | ApiAuth.Failure error =>
          Some ("'"%char, "authorization:github:error:" ++ ApiAuth.error_literal error)
      | ApiAuth.Success access_token =>
          Some ("'"%char,
                "authorization:github:success:" ++ ApiAuth.success_literal access_token)
      | ApiAuth.Crashed _ => None
      end
  | Both.part_000 =>
      match Part000.classify result with
      | Part000.Failure text => Some (ascii_of_nat 34, Js.template text)
      | Part000.Success (Some (Js.JStr tok)) => Some (ascii_of_nat 34, Js.escape tok)
      | _ => None
      end
  end.

(** Two ways in which the text between the quotes [q] leaves no program.
    With no [<] in the text, the literal ends at a quote of the text and a
    name that is no operator follows at once: a string and a name side by
    side are no expression.  Or the text has [</script>], with no quote and
    no [<] before it and no [<] after it: the script element ends there,
    inside the literal, which is then not closed, and what follows is text
    of the page.  Other texts that [Both.script] leaves out are not
    decided here. *)
Definition breaks (q : ascii) (text : string) : bool :=
  (Popup.inert text
   && match Popup.literal_rest q text with
      | Some (String c _) => name_start c
      | _ => false
      end)
  || match Build.find "</script>" text with
     | Some (before, after) =>
         Popup.inert before && Popup.inert after
         && match Popup.literal_value q before with
            | Some _ => true
            | None => false
            end
     | None => false
     end.

(** The script of the page sent, with the pages the text breaks. *)
Definition script (v : Both.Version) (opener : bool) (result : Http.FetchResult)
  : option Popup.Script :=
  match Both.script v opener result with
  | Some s => Some s
  | None =>
      match literal v result with
      | Some (q, text) => if breaks q text then Some unparsed else None
      | None => None
      end
  end.

End Page.

(* ================================================================= *)
(** ** The message contract, and sample data *)

Module Contract.

(** [authorization:github:success:<json>] for a token [tok] written as
    it is: the message the opener of the popup reads. *)
Definition success_message (tok : string) : string :=
  "authorization:github:success:{" ++ Str.dq ++ "token" ++ Str.dq ++ ":"
    ++ Str.dq ++ tok ++ Str.dq ++ "," ++ Str.dq ++ "provider" ++ Str.dq ++ ":"
    ++ Str.dq ++ "github" ++ Str.dq ++ "}".

(** [authorization:github:error:<json>] for a text written as it is. *)
Definition error_message (text : string) : string :=
  "authorization:github:error:" ++ Str.dq ++ text ++ Str.dq.

Definition authorizing : Popup.Effect :=
  Popup.PostMessage "authorizing:github" "*".

(** The success message around the text that stands for the token. *)
Definition success_head : string :=
  "authorization:github:success:{" ++ Str.dq ++ "token" ++ Str.dq ++ ":" ++ Str.dq.

Definition success_tail : string :=
  Str.dq ++ "," ++ Str.dq ++ "provider" ++ Str.dq ++ ":" ++ Str.dq ++ "github"
    ++ Str.dq ++ "}".

(** The two-phase handshake for a token written as it is: announce,
    then answer every message at its origin. *)
Definition success_script (opener : bool) (tok : string) : Popup.Script :=
  {| Popup.on_load := Popup.opener_postMessage opener "authorizing:github" "*";
     Popup.listeners :=
       [fun e => Popup.opener_postMessage opener
                   (success_message tok) (Popup.origin e)] |}.

(** The script of the success page as either version writes it, for
    the message [m]: [src/unnamed/part_000] guards the announcement with
    [window.opener &&]. *)
Definition handshake (v : Both.Version) (opener : bool) (m : string)
  : Popup.Script :=
  {| Popup.on_load :=
       match v with
       | Both.api_auth => Popup.opener_postMessage opener "authorizing:github" "*"
       | Both.part_000 => Popup.opener_and_postMessage opener "authorizing:github" "*"
       end;
     Popup.listeners := [fun e => Popup.opener_postMessage opener m (Popup.origin e)] |}.


End Contract.

Module Sample.

(** The decoding of a name or a value of the query: [+] is a space,
    [%XY] the byte of that value, and a [%] that two hexadecimal digits do
    not follow stands for itself. *)
Fixpoint percent_decode (s : string) : string :=
  match s with
  | EmptyString => EmptyString
  | String c r =>
      if (Str.code c =? 43)%nat then String (ascii_of_nat 32) (percent_decode r)
      else if (Str.code c =? 37)%nat then
        match r with
        | String a (String b r') =>
            match Str.hex_value a, Str.hex_value b with
            | Some h, Some l =>
                String (ascii_of_nat (16 * h + l)) (percent_decode r')
            | _, _ => String c (percent_decode r)
            end
        | _ => String c (percent_decode r)
        end
      else String c (percent_decode r)
  end.

(** A stand-in for the platform's URL parser on the sample requests,
    whatever the base: the query runs from the first [?] to the first [#];
    its fields between [&], the empty ones skipped, are cut at their first
    [=] and decoded. *)
Definition searchParams (input base : string) : option Url.SearchParams :=
  match snd (Str.cut "?" (fst (Str.cut "#" input))) with
  | None => Some []
  | Some query =>
      Some (map (fun field =>
                   (percent_decode (fst (Str.cut "=" field)),
                    percent_decode
                      match snd (Str.cut "=" field) with
                      | Some v => v
                      | None => EmptyString
                      end))
              (filter (fun field => negb (Str.is_empty field))
                      (Str.fields "&" query)))
  end.

Definition env : Process.Env :=
  {| Process.GITHUB_CLIENT_ID := Some "ID";
     Process.GITHUB_CLIENT_SECRET := Some "SECRET";
     Process.VERCEL_URL := None;
     Process.PRODUCTION_URL := None |}.

(** The same process on a preview deployment of the platform. *)
Definition preview_env : Process.Env :=
  {| Process.GITHUB_CLIENT_ID := Some "ID";
     Process.GITHUB_CLIENT_SECRET := Some "SECRET";
     Process.VERCEL_URL := Some "renso-foundation-git-preview.vercel.app";
     Process.PRODUCTION_URL := None |}.

Definition uuid : string := "3b241101-e2bb-4255-8caf-4136c566a962".

Definition request (target : string) : Http.Request :=
  {| Http.url := target;
     Http.headers := [("host", "renso-foundation.vercel.app")] |}.

(** The first request of the flow, and the callback with a code. *)
Definition first : Http.Request := request "/api/auth".
Definition callback : Http.Request := request "/api/auth?code=abc123".

(** The answers of the stub provider in the scenarios of the spec. *)
Definition token_answer : Js.json :=
  Js.JObj [("access_token", Js.JStr "tok_xyz")].

Definition expired_answer : Js.json :=
  Js.JObj [("error", Js.JStr "bad_verification_code");
           ("error_description", Js.JStr "The code passed is incorrect or expired.")].


(** A token with an apostrophe, and a token with an end tag. *)
Definition apostrophe_answer : Js.json :=
  Js.JObj [("access_token", Js.JStr "it's")].


(** An answer of the provider that repeats the secret it was sent. *)
Definition echo_answer : Js.json :=
  Js.JObj [("error", Js.JStr "incorrect_client_credentials: SECRET");
           ("error_description",
            Js.JStr "The client_secret SECRET passed is incorrect.")].

(** The provider answers with a page that is not JSON. *)
Definition not_json : Http.FetchResult :=
  Http.NotJson (Js.mkError "SyntaxError" "Unexpected token < in JSON at position 0").

Definition opener_event : Popup.MessageEvent :=
  {| Popup.data := "authorizing:github";
     Popup.origin := "https://renso-foundation.vercel.app";
     Popup.source := 0 |}.

Definition other_event : Popup.MessageEvent :=
  {| Popup.data := "hello";
     Popup.origin := "https://other.example";
     Popup.source := 7 |}.

End Sample.

(* ================================================================= *)
(** * Properties *)

(** ** Strings, escapes and literals *)

Lemma append_assoc (a b c : string) : (a ++ b) ++ c = a ++ (b ++ c).
Proof.
  induction a as [|x a IH]; simpl; [reflexivity | now rewrite IH].
Qed.

Lemma forallb_app (p : ascii -> bool) (a b : string) :
  Str.forallb p (a ++ b) = Str.forallb p a && Str.forallb p b.
Proof.
  induction a as [|x a IH]; simpl; [reflexivity|].
  rewrite IH. now rewrite andb_assoc.
Qed.

Lemma forallb_impl (p q : ascii -> bool) (s : string) :
  (forall c, p c = true -> q c = true) ->
  Str.forallb p s = true -> Str.forallb q s = true.
Proof.
  intros Hpq. induction s as [|x s IH]; simpl; [reflexivity|].
  intros H. apply andb_true_iff in H as [Hx Hs].
  rewrite (Hpq _ Hx), (IH Hs). reflexivity.
Qed.








Lemma inert_app (a b : string) :
  Popup.inert (a ++ b) = Popup.inert a && Popup.inert b.
Proof. apply forallb_app. Qed.


(** A raw character stands for itself. *)
Lemma literal_value_cons (q c : ascii) (r : string) :
  Popup.raw q c = true ->
  Popup.literal_value q (String c r)
  = option_map (String c) (Popup.literal_value q r).
Proof.
  unfold Popup.raw. intros H.
  repeat (apply andb_true_iff in H as [H ?]).
  cbn [Popup.literal_value].
  destruct (Ascii.eqb c q); [discriminate|].
  destruct (Str.code c =? 10)%nat; [discriminate|].
  destruct (Str.code c =? 13)%nat; [discriminate|].
  destruct (Str.code c =? 92)%nat; [discriminate|].
  reflexivity.
Qed.

Lemma literal_value_raw (q : ascii) (s : string) :
  Str.forallb (Popup.raw q) s = true -> Popup.literal_value q s = Some s.
Proof.
  induction s as [|c s IH]; [reflexivity|].
  cbn [Str.forallb]. intros H. apply andb_true_iff in H as [Hc Hs].
  rewrite (literal_value_cons _ _ _ Hc), (IH Hs). reflexivity.
Qed.

(** After a run of raw characters the literal goes on as before. *)
Lemma literal_value_app (q : ascii) (a b : string) :
  Str.forallb (Popup.raw q) a = true ->
  Popup.literal_value q (a ++ b)
  = option_map (append a) (Popup.literal_value q b).
Proof.
  induction a as [|c a IH]; cbn [Str.forallb append].
  - intros _. now destruct (Popup.literal_value q b).
  - intros H. apply andb_true_iff in H as [Hc Ha].
    rewrite (literal_value_cons _ _ _ Hc), (IH Ha).
    now destruct (Popup.literal_value q b).
Qed.

Lemma literal_escape_char (c : ascii) (r : string) :
  Ascii.eqb c "'" = false ->
  Popup.literal_value "'" (Js.escape_char c ++ r)
  = option_map (String c) (Popup.literal_value "'" r).
Proof. destruct c as [[] [] [] [] [] [] [] []]; try discriminate; reflexivity. Qed.

(** The literal undoes the escapes of [JSON.stringify]. *)
Lemma literal_escape (s r : string) :
  Str.no_char "'" s = true ->
  Popup.literal_value "'" (Js.escape s ++ r)
  = option_map (append s) (Popup.literal_value "'" r).
Proof.
  unfold Str.no_char. induction s as [|c s IH]; cbn [Str.forallb Js.escape].
  - intros _. cbn [append]. now destruct (Popup.literal_value "'" r).
  - intros H. apply andb_true_iff in H as [Hc Hs].
    apply negb_true_iff in Hc.
    rewrite append_assoc, (literal_escape_char _ _ Hc), (IH Hs).
    now destruct (Popup.literal_value "'" r).
Qed.

Lemma inert_escape_char (c : ascii) :
  negb (Str.code c =? 60)%nat = true -> Popup.inert (Js.escape_char c) = true.
Proof. destruct c as [[] [] [] [] [] [] [] []]; try discriminate; reflexivity. Qed.

Lemma inert_escape (s : string) :
  Popup.inert s = true -> Popup.inert (Js.escape s) = true.
Proof.
  unfold Popup.inert at 1. induction s as [|c s IH]; cbn [Str.forallb Js.escape].
  - reflexivity.
  - intros H. apply andb_true_iff in H as [Hc Hs].
    now rewrite inert_app, (inert_escape_char _ Hc), (IH Hs).
Qed.

(** ** The pages for a plain token or error text *)




Lemma prefix_app (t b : string) : prefix t (t ++ b) = true.
Proof.
  induction t as [|c t IH]; simpl; [now destruct b|].
  destruct (ascii_dec c c) as [_|N]; [exact IH | now destruct N].
Qed.

Lemma includes_prefix (t s : string) :
  prefix t s = true -> Str.includes t s = true.
Proof. intros H. destruct s; cbn [Str.includes]; now rewrite H. Qed.

Lemma includes_middle (a t b : string) : Str.includes t (a ++ t ++ b) = true.
Proof.
  induction a as [|c a IH].
  - change (EmptyString ++ t ++ b) with (t ++ b).
    apply includes_prefix, prefix_app.
  - cbn [append Str.includes].
    destruct (prefix t (String c (a ++ t ++ b))); [reflexivity | exact IH].
Qed.


(** ** The callback path *)

Lemma api_handler_awaits parse env uuid req :
  Http.awaits (ApiAuth.handler parse env uuid req) = true ->
  exists sp code,
    parse (Http.url req) (ApiAuth.ORIGIN env) = Some sp
    /\ Url.get "code" sp = Some code
    /\ Js.truthy_string (Some code) = true
    /\ ApiAuth.handler parse env uuid req
       = Http.Await (ApiAuth.token_request env code)
                    (fun result => ApiAuth.render (ApiAuth.classify result)).
Proof.
  unfold ApiAuth.handler.
  destruct (parse (Http.url req) (ApiAuth.ORIGIN env)) as [sp|]; [|discriminate].
  destruct (Url.get "code" sp) as [code|] eqn:Hc; [|discriminate].
  destruct (Js.truthy_string (Some code)) eqn:Ht; [|discriminate].
  intros _. exists sp, code. repeat split; assumption.
Qed.

Lemma part_handler_awaits parse env req :
  Http.awaits (Part000.handler parse env req) = true ->
  exists sp code,
    parse (Http.url req) (Part000.baseUrl req) = Some sp
    /\ Url.get "code" sp = Some code
    /\ Js.truthy_string (Some code) = true
    /\ Part000.handler parse env req
       = Http.Await (Part000.token_request env code)
                    (fun result => Part000.render (Part000.classify result)).
Proof.
  unfold Part000.handler.
  destruct (parse (Http.url req) (Part000.baseUrl req)) as [sp|]; [|discriminate].
  destruct (Url.get "code" sp) as [code|] eqn:Hc; [|discriminate].
  destruct (Js.truthy_string (Some code)) eqn:Ht; [|discriminate].
  intros _. exists sp, code. repeat split; assumption.
Qed.

(** On the callback path the answer is a function of the result of the
    exchange alone. *)
Lemma callback_complete v parse env uuid req result :
  Http.awaits (Both.handler v parse env uuid req) = true ->
  Http.complete (Both.handler v parse env uuid req) result
  = Both.answer v result.
Proof.
  destruct v; cbn [Both.handler]; intros H.
  - destruct (api_handler_awaits _ _ _ _ H) as (sp & code & _ & _ & _ & ->).
    reflexivity.
  - destruct (part_handler_awaits _ _ _ H) as (sp & code & _ & _ & _ & ->).
    reflexivity.
Qed.

Lemma api_classify_success tokenData error access_token :
  Js.get tokenData "error" = inr error -> Js.truthy error = false ->
  Js.get tokenData "access_token" = inr access_token ->
  ApiAuth.classify (Http.Parsed tokenData) = ApiAuth.Success access_token.
Proof. intros He Ht Ha. cbn [ApiAuth.classify]. now rewrite He, Ht, Ha. Qed.

Lemma part_classify_success tokenData error access_token :
  Js.get tokenData "error" = inr error -> Js.truthy error = false ->
  Js.get tokenData "access_token" = inr access_token ->
  Part000.classify (Http.Parsed tokenData) = Part000.Success access_token.
Proof. intros He Ht Ha. cbn [Part000.classify]. now rewrite He, Ht, Ha. Qed.




Lemma deliver_uncaught m events :
  Popup.deliver [fun e => Popup.opener_postMessage false m (Popup.origin e)] events
  = map (fun _ => Popup.Uncaught) events.
Proof.
  induction events as [|e es IH]; [reflexivity|].
  cbn. f_equal. exact IH.
Qed.

Lemma no_post_in_uncaught (events : list Popup.MessageEvent) :
  existsb Popup.posts (map (fun _ => Popup.Uncaught) events) = false.
Proof. induction events as [|e es IH]; [reflexivity | exact IH]. Qed.

Lemma run_uncaught_listener loaded m events :
  Popup.closes loaded = false ->
  Popup.run
    {| Popup.on_load := loaded;
       Popup.listeners :=
         [fun e => Popup.opener_postMessage false m (Popup.origin e)] |}
    events
  = (loaded ++ map (fun _ => Popup.Uncaught) events)%list.
Proof.
  intros H. unfold Popup.run. cbn [Popup.on_load Popup.listeners].
  now rewrite H, deliver_uncaught.
Qed.

(* ================================================================= *)
(** ** The scripts of the pages, for the texts that fit *)

Lemma success_json_form (tok : string) :
  "authorization:github:success:"
    ++ Js.stringify (Js.object [("token", Some (Js.JStr tok));
                                ("provider", Some (Js.JStr "github"))])
  = Contract.success_head ++ Js.escape tok ++ Contract.success_tail.
Proof.
  cbv [Js.stringify Js.object Js.defined map String.concat Js.quote fst snd].
  rewrite !append_assoc. reflexivity.
Qed.

Lemma api_success_literal_form (tok : string) :
  "authorization:github:success:" ++ ApiAuth.success_literal (Some (Js.JStr tok))
  = Contract.success_head ++ Js.escape tok ++ Contract.success_tail.
Proof. exact (success_json_form tok). Qed.

Lemma api_token_script (opener : bool) (tok : string) :
  Str.no_char "'" tok = true ->
  Popup.inert tok = true ->
  ApiAuth.script opener (ApiAuth.Success (Some (Js.JStr tok)))
  = Some (Contract.success_script opener tok).
Proof.
  intros Hq Hi. cbn [ApiAuth.script].
  assert (I : Popup.inert (ApiAuth.success_literal (Some (Js.JStr tok))) = true).
  { pose proof (api_success_literal_form tok) as E.
    assert (J : Popup.inert
                  (Contract.success_head ++ Js.escape tok ++ Contract.success_tail)
                = true).
    { now rewrite !inert_app, (inert_escape _ Hi). }
    rewrite <- E, inert_app in J. now apply andb_true_iff in J as [_ J]. }
  rewrite I, api_success_literal_form.
  rewrite (literal_value_app "'" Contract.success_head _ eq_refl).
  rewrite (literal_escape _ _ Hq).
  rewrite (literal_value_raw "'" Contract.success_tail eq_refl).
  reflexivity.
Qed.

Lemma part_token_script (opener : bool) (tok : string) :
  Popup.inert tok = true ->
  Part000.script opener (Part000.Success (Some (Js.JStr tok)))
  = Some (Contract.handshake Both.part_000 opener
            (Contract.success_message (Js.escape tok))).
Proof.
  intros Hi. cbn [Part000.script].
  assert (I : Popup.inert (Part000.token_literal (Some (Js.JStr tok))) = true).
  { unfold Part000.token_literal. cbn. unfold Js.quote.
    now rewrite !inert_app, (inert_escape _ Hi). }
  rewrite I. unfold Contract.handshake.
  change (Contract.success_message (Js.escape tok))
    with (Contract.success_head ++ Js.escape tok ++ Contract.success_tail).
  rewrite <- (success_json_form tok). reflexivity.
Qed.

(** The script of the success page, for a token that fits. *)
Lemma token_script v opener tokenData error tok :
  Js.get tokenData "error" = inr error ->
  Js.truthy error = false ->
  Js.get tokenData "access_token" = inr (Some (Js.JStr tok)) ->
  Both.fits v tok = true ->
  Both.script v opener (Http.Parsed tokenData)
  = Some (Contract.handshake v opener
            (Contract.success_message (Both.written v tok))).
Proof.
  intros He Ht Ha Hf. unfold Both.fits in Hf.
  apply andb_true_iff in Hf as [Hi Hq].
  destruct v; cbn [Both.script Both.written].
  - rewrite (api_classify_success _ _ _ He Ht Ha).
    now rewrite (api_token_script opener tok Hq Hi).
  - rewrite (part_classify_success _ _ _ He Ht Ha).
    now rewrite (part_token_script opener tok Hi).
Qed.




(** The answer for a token: the success page, as 200 and [text/html]. *)
Lemma token_answer v tokenData error access_token :
  Js.get tokenData "error" = inr error ->
  Js.truthy error = false ->
  Js.get tokenData "access_token" = inr access_token ->
  Both.answer v (Http.Parsed tokenData)
  = Http.Sent
      {| Http.status_code := 200;
         Http.headers_set := [("Content-Type", "text/html")];
         Http.body := Both.success_page v access_token |}
      [].
Proof.
  intros He Ht Ha. destruct v; cbn [Both.answer Both.success_page].
  - now rewrite (api_classify_success _ _ _ He Ht Ha).
  - now rewrite (part_classify_success _ _ _ He Ht Ha).
Qed.

(** ** The scenarios of the spec, run on the two versions *)

Example first_request_api_auth :
  Http.location_of
    (ApiAuth.handler Sample.searchParams Sample.env Sample.uuid Sample.first)
  = Some ("https://github.com/login/oauth/authorize?client_id=ID&scope=repo%2Cuser"
            ++ "&state=3b241101-e2bb-4255-8caf-4136c566a962"
            ++ "&redirect_uri=https%3A%2F%2Frenso-foundation.vercel.app%2Fapi%2Fauth").
Proof. reflexivity. Qed.

Example caller_state_forwarded :
  Http.location_of
    (Part000.handler Sample.searchParams Sample.env
       (Sample.request "/api/auth?state=s3cr3t"))
  = Some ("https://github.com/login/oauth/authorize?client_id=ID&scope=repo%2Cuser"
            ++ "&redirect_uri=https%3A%2F%2Frenso-foundation.vercel.app%2Fapi%2Fauth"
            ++ "&state=s3cr3t").
Proof. reflexivity. Qed.

Example token_scenario :
  Http.status_of (Both.answer Both.part_000 (Http.Parsed Sample.token_answer))
  = Some 200
  /\ option_map (fun s => Popup.run s [Sample.opener_event])
       (Both.script Both.part_000 true (Http.Parsed Sample.token_answer))
     = Some [Contract.authorizing;
             Popup.PostMessage (Contract.success_message "tok_xyz")
               "https://renso-foundation.vercel.app"].
Proof. split; reflexivity. Qed.

Example expired_scenario :
  Http.status_of (Both.answer Both.api_auth (Http.Parsed Sample.expired_answer))
  = Some 401
  /\ Http.status_of (Both.answer Both.part_000 (Http.Parsed Sample.expired_answer))
     = Some 401.
Proof. split; reflexivity. Qed.

(** An [error] that is not truthy does not make an error page. *)
Example empty_error_is_no_error :
  Http.status_of
    (Both.answer Both.api_auth
       (Http.Parsed (Js.JObj [("error", Js.JStr EmptyString);
                              ("access_token", Js.JStr "tok_xyz")])))
  = Some 200.
Proof. reflexivity. Qed.

(** A token with an apostrophe ends the literal of [api/auth.js] early,
    and the name [s] follows the literal: the script does not parse. *)
Example apostrophe_ends_literal :
  ApiAuth.script true (ApiAuth.Success (Some (Js.JStr "it's"))) = None
  /\ Popup.literal_rest "'"
       ("authorization:github:success:"
          ++ ApiAuth.success_literal (Some (Js.JStr "it's")))
     = Some ("s" ++ Str.dq ++ "," ++ Str.dq ++ "provider" ++ Str.dq ++ ":"
               ++ Str.dq ++ "github" ++ Str.dq ++ "}")
  /\ Page.script Both.api_auth true (Http.Parsed Sample.apostrophe_answer)
     = Some Page.unparsed.
Proof. repeat split; reflexivity. Qed.

(** A token with a quote goes through [part_000] whole, escaped in the
    JSON of the message. *)
Example quote_is_escaped :
  option_map (fun s => Popup.dispatch s Sample.other_event)
    (Part000.script true (Part000.Success (Some (Js.JStr ("a" ++ Str.dq ++ "b")))))
  = Some [Popup.PostMessage
            ("authorization:github:success:{" ++ Str.dq ++ "token" ++ Str.dq ++ ":"
               ++ Str.dq ++ "a\" ++ Str.dq ++ "b" ++ Str.dq ++ ","
               ++ Str.dq ++ "provider" ++ Str.dq ++ ":" ++ Str.dq ++ "github"
               ++ Str.dq ++ "}")
            "https://other.example"].
Proof. reflexivity. Qed.

(* ================================================================= *)
(** ** C1: delivery of the token *)




(* ================================================================= *)
(** ** C2: the redirect URI of the exchange *)

(** What either version does with a request, in one shape. *)
Lemma part_handler_shape parse env req :
  match Part000.handler parse env req with
  | Http.Return (Http.Sent r log) =>
      exists state,
        r = Http.redirect 302
              ("https://github.com/login/oauth/authorize?"
                 ++ Url.to_string (Part000.authorize_params env state))
              Http.res
        /\ log = []
  | Http.Return (Http.Threw _) => True
  | Http.Await call k =>
      exists code, Js.truthy_string (Some code) = true
                   /\ call = Part000.token_request env code
  end.
Proof.
  unfold Part000.handler.
  destruct (parse (Http.url req) (Part000.baseUrl req)) as [sp|]; [|exact I].
  destruct (Url.get "code" sp) as [code|] eqn:Hc.
  - destruct (Js.truthy_string (Some code)) eqn:Ht; cbn [negb].
    + now exists code.
    + now eexists.
  - now eexists.
Qed.

Lemma api_handler_shape parse env uuid req :
  match ApiAuth.handler parse env uuid req with
  | Http.Return (Http.Sent r log) =>
      exists state,
        r = Http.redirect 302
              ("https://github.com/login/oauth/authorize?"
                 ++ Url.to_string (ApiAuth.authorize_params env uuid state))
              Http.res
        /\ log = []
  | Http.Return (Http.Threw _) => True
  | Http.Await call k =>
      exists code, Js.truthy_string (Some code) = true
                   /\ call = ApiAuth.token_request env code
  end.
Proof.
  unfold ApiAuth.handler.
  destruct (parse (Http.url req) (ApiAuth.ORIGIN env)) as [sp|]; [|exact I].
  destruct (Url.get "code" sp) as [code|] eqn:Hc.
  - destruct (Js.truthy_string (Some code)) eqn:Ht; cbn [negb].
    + now exists code.
    + now eexists.
  - now eexists.
Qed.

(** In [part_000] the two steps use the same [redirect_uri]: [CALLBACK]. *)
Lemma part_redirect_uri_bound env :
  (forall state,
      Url.get "redirect_uri" (Part000.authorize_params env state)
      = Some (Part000.CALLBACK env))
  /\ (forall code,
         Http.fetch_body (Part000.token_request env code)
         = Js.stringify
             (Js.object [("client_id", Js.str (Process.GITHUB_CLIENT_ID env));
                         ("client_secret", Js.str (Process.GITHUB_CLIENT_SECRET env));
                         ("code", Some (Js.JStr code));
                         ("redirect_uri", Some (Js.JStr (Part000.CALLBACK env)))])).
Proof.
  split; [|reflexivity].
  intros state. unfold Part000.authorize_params.
  destruct (Js.truthy_string state); reflexivity.
Qed.

(** C2 on [api/auth.js]: the redirect step sends
    [redirect_uri=<ORIGIN>/api/auth], and the body posted to the token
    endpoint for the callback has the client id, the client secret and the
    code, and no [redirect_uri] at all. *)
Theorem C2_api_auth_omits_redirect_uri :
  Http.location_of
    (Both.handler Both.api_auth Sample.searchParams Sample.env Sample.uuid
       Sample.first)
  = Some ("https://github.com/login/oauth/authorize?client_id=ID&scope=repo%2Cuser"
            ++ "&state=3b241101-e2bb-4255-8caf-4136c566a962"
            ++ "&redirect_uri=https%3A%2F%2Frenso-foundation.vercel.app%2Fapi%2Fauth")
  /\ option_map Http.fetch_body
       (Http.call_of
          (Both.handler Both.api_auth Sample.searchParams Sample.env Sample.uuid
             Sample.callback))
     = Some (Js.stringify
               (Js.JObj [("client_id", Js.JStr "ID");
                         ("client_secret", Js.JStr "SECRET");
                         ("code", Js.JStr "abc123")]))
  /\ option_map (Str.includes "redirect_uri")
       (option_map Http.fetch_body
          (Http.call_of
             (Both.handler Both.api_auth Sample.searchParams Sample.env Sample.uuid
                Sample.callback)))
     = Some false
  /\ option_map (Str.includes "redirect_uri")
       (option_map Http.fetch_body
          (Http.call_of
             (Both.handler Both.part_000 Sample.searchParams Sample.env Sample.uuid
                Sample.callback)))
     = Some true.
Proof. repeat split; reflexivity. Qed.

(* ================================================================= *)
(** ** C5: the state of the redirect *)

(** [api/auth.js] always sends a state: the caller's when it is not
    empty, else the fresh UUID. *)
Lemma api_state_always_sent env uuid state :
  Url.get "state" (ApiAuth.authorize_params env uuid state)
  = Some (if Js.truthy_string state then Js.template_string state else uuid).
Proof. reflexivity. Qed.

Lemma part_state_forwarded env state :
  Js.truthy_string state = true ->
  Url.get "state" (Part000.authorize_params env state) = state.
Proof.
  intros H. unfold Part000.authorize_params. rewrite H.
  destruct state as [s|]; [reflexivity | discriminate].
Qed.

(** C5 on [part_000]: for the first request of the flow, with no query,
    the redirect has a client id, a scope and a redirect URI, and no
    [state] parameter. *)
Theorem C5_part_000_omits_state :
  Http.location_of
    (Both.handler Both.part_000 Sample.searchParams Sample.env Sample.uuid
       Sample.first)
  = Some ("https://github.com/login/oauth/authorize?client_id=ID&scope=repo%2Cuser"
            ++ "&redirect_uri=https%3A%2F%2Frenso-foundation.vercel.app%2Fapi%2Fauth")
  /\ Url.get "state" (Part000.authorize_params Sample.env None) = None
  /\ option_map (Str.includes "state")
       (Http.location_of
          (Both.handler Both.part_000 Sample.searchParams Sample.env Sample.uuid
             Sample.first))
     = Some false
  /\ Url.get "state" (ApiAuth.authorize_params Sample.env Sample.uuid None)
     = Some Sample.uuid.
Proof. repeat split; reflexivity. Qed.

(* ================================================================= *)
(** ** C7: failures of the exchange *)

(** Whatever the exchange gives, the handler answers: nothing is thrown
    once the call is awaited. *)
Lemma callback_never_throws v parse env uuid req result :
  Http.awaits (Both.handler v parse env uuid req) = true ->
  exists r log,
    Http.complete (Both.handler v parse env uuid req) result = Http.Sent r log.
Proof.
  intros Hw. rewrite (callback_complete _ _ _ _ _ _ Hw).
  destruct v; cbn [Both.answer].
  - destruct (ApiAuth.classify result); do 2 eexists; reflexivity.
  - destruct (Part000.classify result); do 2 eexists; reflexivity.
Qed.

(** [api/auth.js] answers every failure of the exchange (no answer from
    the network, an answer that is not JSON, a [TypeError] on a [null]
    answer) with the same fixed text. *)
Lemma api_failure_generic parse env uuid req result err :
  Http.awaits (ApiAuth.handler parse env uuid req) = true ->
  ApiAuth.classify result = ApiAuth.Crashed err ->
  Http.complete (ApiAuth.handler parse env uuid req) result
  = Http.Sent
      {| Http.status_code := 500;
         Http.headers_set := [("Content-Type", "text/html")];
         Http.body := "Authentication failed. Please try again." |}
      [("OAuth error:", err)].
Proof.
  intros Hw Hc.
  rewrite (callback_complete Both.api_auth _ _ _ _ _ Hw).
  cbn [Both.answer]. now rewrite Hc.
Qed.

Lemma infrastructure_failures_crash err :
  ApiAuth.classify (Http.Rejected err) = ApiAuth.Crashed err
  /\ ApiAuth.classify (Http.NotJson err) = ApiAuth.Crashed err
  /\ Part000.classify (Http.Rejected err) = Part000.Crashed err
  /\ Part000.classify (Http.NotJson err) = Part000.Crashed err
  /\ exists e, ApiAuth.classify (Http.Parsed Js.JNull) = ApiAuth.Crashed e.
Proof. repeat split. now eexists. Qed.

(** The page of [part_000] for a failure carries the text of the
    exception. *)
Lemma part_failed_page_includes err :
  Str.includes (Js.message err) (Part000.failed_page err) = true.
Proof. unfold Part000.failed_page. apply includes_middle. Qed.

(** C7 on [part_000]: when the answer of the provider is not JSON, the
    handler answers 500, and the body is the page
    [Authentication failed: <message of the exception>]: the text of the
    exception reaches the browser.  [api/auth.js] answers the same failure
    with its fixed text. *)
Theorem C7_part_000_shows_exception_text :
  Http.status_of
    (Http.complete
       (Both.handler Both.part_000 Sample.searchParams Sample.env Sample.uuid
          Sample.callback)
       Sample.not_json)
  = Some 500
  /\ option_map (Str.includes "Unexpected token < in JSON at position 0")
       (Http.body_of
          (Http.complete
             (Both.handler Both.part_000 Sample.searchParams Sample.env Sample.uuid
                Sample.callback)
             Sample.not_json))
     = Some true
  /\ Http.body_of
       (Http.complete
          (Both.handler Both.api_auth Sample.searchParams Sample.env Sample.uuid
             Sample.callback)
          Sample.not_json)
     = Some "Authentication failed. Please try again.".
Proof. repeat split; reflexivity. Qed.

(* ================================================================= *)
(** ** C8: the base of the callback URL *)

(** In [part_000] the callback URL is a function of [PRODUCTION_URL]
    alone: the deployment host does not enter it, and no request does. *)
Lemma part_callback_fixed env host :
  Part000.CALLBACK (Process.with_vercel_url env host) = Part000.CALLBACK env.
Proof. reflexivity. Qed.

(** C8 on [api/auth.js]: the base of the callback URL is taken from
    [VERCEL_URL], the host of the deployment; the same service on a
    preview deployment sends another [redirect_uri] than in production. *)
Theorem C8_api_auth_follows_deployment_host :
  Both.callback Both.api_auth Sample.env
  = "https://renso-foundation.vercel.app/api/auth"
  /\ Both.callback Both.api_auth Sample.preview_env
     = "https://renso-foundation-git-preview.vercel.app/api/auth"
  /\ Http.location_of
       (Both.handler Both.api_auth Sample.searchParams Sample.preview_env
          Sample.uuid Sample.first)
     = Some ("https://github.com/login/oauth/authorize?client_id=ID&scope=repo%2Cuser"
               ++ "&state=3b241101-e2bb-4255-8caf-4136c566a962"
               ++ "&redirect_uri=https%3A%2F%2Frenso-foundation-git-preview.vercel.app%2Fapi%2Fauth")
  /\ Both.callback Both.part_000 Sample.preview_env
     = Both.callback Both.part_000 Sample.env.
Proof. repeat split; reflexivity. Qed.

(* ================================================================= *)
(** ** C3: where the outcome is posted *)




(* ================================================================= *)
(** ** C4: an error reported by the provider *)




(* ================================================================= *)
(** ** C6: the client secret *)

Lemma includes_skip (a t s : string) :
  Str.includes t s = true -> Str.includes t (a ++ s) = true.
Proof.
  intros H. induction a as [|c a IH]; [exact H|].
  cbn [append Str.includes].
  now destruct (prefix t (String c (a ++ s))).
Qed.

Lemma includes_here (t b : string) : Str.includes t (t ++ b) = true.
Proof. apply includes_prefix, prefix_app. Qed.

Ltac find_in_appends :=
  repeat first [apply includes_here | apply includes_skip].

(** The body posted to the token endpoint carries the secret, as a JSON
    string. *)
Lemma token_request_carries_secret v parse env uuid req secret :
  match Http.call_of
          (Both.handler v parse (Process.with_secret env (Some secret)) uuid req) with
  | Some call => Str.includes (Js.quote secret) (Http.fetch_body call) = true
  | None => True
  end.
Proof.
  destruct v; cbn [Both.handler].
  - pose proof (api_handler_shape parse (Process.with_secret env (Some secret))
                  uuid req) as S.
    destruct (ApiAuth.handler _ _ _ _) as [o|call k]; [exact I|].
    destruct S as (code & _ & ->). cbn [Http.call_of].
    unfold ApiAuth.token_request, ApiAuth.GITHUB_CLIENT_ID,
      ApiAuth.GITHUB_CLIENT_SECRET.
    cbn [Http.fetch_body Process.with_secret Process.GITHUB_CLIENT_ID
           Process.GITHUB_CLIENT_SECRET].
    destruct (Process.GITHUB_CLIENT_ID env) as [id|];
      cbv [Js.stringify Js.object Js.defined Js.str option_map map String.concat
             fst snd];
      rewrite !append_assoc; find_in_appends.
  - pose proof (part_handler_shape parse (Process.with_secret env (Some secret))
                  req) as S.
    destruct (Part000.handler _ _ _) as [o|call k]; [exact I|].
    destruct S as (code & _ & ->). cbn [Http.call_of].
    unfold Part000.token_request, Part000.GITHUB_CLIENT_ID,
      Part000.GITHUB_CLIENT_SECRET.
    cbn [Http.fetch_body Process.with_secret Process.GITHUB_CLIENT_ID
           Process.GITHUB_CLIENT_SECRET].
    destruct (Process.GITHUB_CLIENT_ID env) as [id|];
      cbv [Js.stringify Js.object Js.defined Js.str option_map map String.concat
             fst snd];
      rewrite !append_assoc; find_in_appends.
Qed.

(** C6, as stated, fails: the error page is written from the text of
    the provider's answer, so an answer that repeats the secret puts it into
    the body of the 401 answer of either version, and into the message the
    page posts. *)
Lemma C6_answer_repeats_secret :
  Process.GITHUB_CLIENT_SECRET Sample.env = Some "SECRET"
  /\ option_map (Str.includes "SECRET")
       (Http.body_of
          (Http.complete
             (Both.handler Both.api_auth Sample.searchParams Sample.env Sample.uuid
                Sample.callback)
             (Http.Parsed Sample.echo_answer)))
     = Some true
  /\ option_map (Str.includes "SECRET")
       (Http.body_of
          (Http.complete
             (Both.handler Both.part_000 Sample.searchParams Sample.env Sample.uuid
                Sample.callback)
             (Http.Parsed Sample.echo_answer)))
     = Some true
  /\ option_map (fun s => Popup.run s [])
       (Both.script Both.part_000 true (Http.Parsed Sample.echo_answer))
     = Some [Popup.PostMessage
               (Contract.error_message "The client_secret SECRET passed is incorrect.")
               "*";
             Popup.Close].
Proof. repeat split; reflexivity. Qed.

(** C6, amended: the answer to the browser does not depend on the client
    secret.  For every request, two processes that differ in
    [GITHUB_CLIENT_SECRET] alone answer alike: the same redirect, or, on the
    callback path, the same response (status, headers and body) and the same
    log for every result of the exchange, be it a token, an error of the
    provider or an exception.  The one output that is written from the
    secret is the body posted to the token endpoint, which carries it as a
    JSON string. *)
Theorem C6_secret_confined :
  forall v parse env uuid req secret1 secret2,
    Http.same_response
      (Both.handler v parse (Process.with_secret env secret1) uuid req)
      (Both.handler v parse (Process.with_secret env secret2) uuid req)
    /\ (forall result,
           Http.complete
             (Both.handler v parse (Process.with_secret env secret1) uuid req) result
           = Http.complete
               (Both.handler v parse (Process.with_secret env secret2) uuid req) result)
    /\ (forall secret,
           match Http.call_of
                   (Both.handler v parse (Process.with_secret env (Some secret))
                      uuid req) with
           | Some call => Str.includes (Js.quote secret) (Http.fetch_body call) = true
           | None => True
           end).
Proof.
  intros v parse env uuid req secret1 secret2.
  assert (S : Http.same_response
                (Both.handler v parse (Process.with_secret env secret1) uuid req)
                (Both.handler v parse (Process.with_secret env secret2) uuid req)).
  { destruct v; cbn [Both.handler].
    - unfold ApiAuth.handler.
      change (ApiAuth.ORIGIN (Process.with_secret env secret1))
        with (ApiAuth.ORIGIN env).
      change (ApiAuth.ORIGIN (Process.with_secret env secret2))
        with (ApiAuth.ORIGIN env).
      destruct (parse (Http.url req) (ApiAuth.ORIGIN env)) as [sp|];
        [|reflexivity].
      destruct (negb (Js.truthy_string (Url.get "code" sp))).
      + reflexivity.
      + intros result. reflexivity.
    - unfold Part000.handler.
      destruct (parse (Http.url req) (Part000.baseUrl req)) as [sp|];
        [|reflexivity].
      destruct (negb (Js.truthy_string (Url.get "code" sp))).
      + reflexivity.
      + intros result. reflexivity. }
  split; [exact S|]. split.
  - intros result. unfold Http.same_response in S.
    destruct (Both.handler v parse (Process.with_secret env secret1) uuid req),
             (Both.handler v parse (Process.with_secret env secret2) uuid req);
      cbn [Http.complete]; try contradiction; [exact S | apply S].
  - intros secret. apply token_request_carries_secret.
Qed.

(* ================================================================= *)
(** ** C9: the state on the callback path *)

Lemma get_without (name other : string) (params : Url.SearchParams) :
  String.eqb name other = false ->
  Url.get name (Url.without other params) = Url.get name params.
Proof.
  intros Hne. induction params as [|[k x] r IH]; [reflexivity|].
  cbn [Url.without filter fst]. fold (Url.without other r).
  unfold Url.get in *. cbn [Js.lookup].
  destruct (String.eqb_spec k other) as [->|Hk]; cbn [negb].
  - rewrite Hne. exact IH.
  - cbn [Js.lookup]. now rewrite IH.
Qed.

Lemma handler_reads_code v parse env uuid req sp :
  Both.searchParams v parse env req = Some sp ->
  Js.truthy_string (Url.get "code" sp) = true ->
  Both.handler v parse env uuid req
  = Http.Await
      (match v with
       | Both.api_auth =>
           ApiAuth.token_request env (Js.template_string (Url.get "code" sp))
       | Both.part_000 =>
           Part000.token_request env (Js.template_string (Url.get "code" sp))
       end)
      (Both.answer v).
Proof.
  destruct v; cbn [Both.searchParams Both.handler]; intros Hp Hc.
  - unfold ApiAuth.handler. now rewrite Hp, Hc.
  - unfold Part000.handler. now rewrite Hp, Hc.
Qed.

(** C9: the callback path does not read the state.  Two requests with a
    code whose query parameters are the same but for [state] get, from
    either version, the same call to the token endpoint and, for every
    result of the exchange, the same response. *)
Theorem C9_state_ignored_on_callback :
  forall v parse env uuid req1 req2 sp1 sp2,
    Both.searchParams v parse env req1 = Some sp1 ->
    Both.searchParams v parse env req2 = Some sp2 ->
    Url.without "state" sp1 = Url.without "state" sp2 ->
    Js.truthy_string (Url.get "code" sp1) = true ->
    Http.call_of (Both.handler v parse env uuid req1)
    = Http.call_of (Both.handler v parse env uuid req2)
    /\ Http.awaits (Both.handler v parse env uuid req1) = true
    /\ forall result,
         Http.complete (Both.handler v parse env uuid req1) result
         = Http.complete (Both.handler v parse env uuid req2) result.
Proof.
  intros v parse env uuid req1 req2 sp1 sp2 H1 H2 Hsame Hcode.
  assert (E : Url.get "code" sp1 = Url.get "code" sp2).
  { rewrite <- (get_without "code" "state" sp1 eq_refl),
            <- (get_without "code" "state" sp2 eq_refl).
    now rewrite Hsame. }
  rewrite (handler_reads_code v parse env uuid req1 sp1 H1 Hcode).
  rewrite E in Hcode.
  rewrite (handler_reads_code v parse env uuid req2 sp2 H2 Hcode).
  rewrite E. repeat split.
Qed.

Lemma C9_state_ignored_on_callback_witness :
  Both.searchParams Both.part_000 Sample.searchParams Sample.env
    (Sample.request "/api/auth?code=abc123&state=one")
  = Some [("code", "abc123"); ("state", "one")]
  /\ Both.searchParams Both.part_000 Sample.searchParams Sample.env
       (Sample.request "/api/auth?state=two&code=abc123")
     = Some [("state", "two"); ("code", "abc123")]
  /\ Url.without "state" [("code", "abc123"); ("state", "one")]
     = Url.without "state" [("state", "two"); ("code", "abc123")]
  /\ Js.truthy_string (Url.get "code" [("code", "abc123"); ("state", "one")]) = true
  /\ Http.call_of
       (Both.handler Both.part_000 Sample.searchParams Sample.env Sample.uuid
          (Sample.request "/api/auth?code=abc123&state=one"))
     = Http.call_of
         (Both.handler Both.part_000 Sample.searchParams Sample.env Sample.uuid
            (Sample.request "/api/auth?state=two&code=abc123"))
  /\ Http.awaits
       (Both.handler Both.part_000 Sample.searchParams Sample.env Sample.uuid
          (Sample.request "/api/auth?code=abc123&state=one")) = true
  /\ forall result,
       Http.complete
         (Both.handler Both.part_000 Sample.searchParams Sample.env Sample.uuid
            (Sample.request "/api/auth?code=abc123&state=one")) result
       = Http.complete
           (Both.handler Both.part_000 Sample.searchParams Sample.env Sample.uuid
              (Sample.request "/api/auth?state=two&code=abc123")) result.
Proof.
  repeat (split; [reflexivity|]).
  apply (C9_state_ignored_on_callback Both.part_000 Sample.searchParams Sample.env
           Sample.uuid
           (Sample.request "/api/auth?code=abc123&state=one")
           (Sample.request "/api/auth?state=two&code=abc123")
           [("code", "abc123"); ("state", "one")]
           [("state", "two"); ("code", "abc123")]);
    reflexivity.
Defined.

(* ================================================================= *)
(** ** C10: the listener of the success page *)




(* ================================================================= *)
(** * Further properties of the handler and of its helpers *)

(** ** The query string of the redirect *)

Lemma encode_char_written (c : ascii) :
  Str.forallb Url.written (Url.encode_char c) = true.
Proof. destruct c as [[] [] [] [] [] [] [] []]; reflexivity. Qed.

Lemma decode_encode_char (c : ascii) (r : string) :
  Url.decode (Url.encode_char c ++ r) = option_map (String c) (Url.decode r).
Proof. destruct c as [[] [] [] [] [] [] [] []]; reflexivity. Qed.

Lemma fields_single (c : ascii) (a : string) :
  Str.no_char c a = true -> Str.fields c a = [a].
Proof.
  unfold Str.no_char. induction a as [|x a IH]; [reflexivity|].
  cbn [Str.forallb Str.fields]. intros H. apply andb_true_iff in H as [Hx Ha].
  destruct (Ascii.eqb x c); [discriminate|]. now rewrite (IH Ha).
Qed.

Lemma fields_app (c : ascii) (a b : string) :
  Str.no_char c a = true ->
  Str.fields c (a ++ String c b) = a :: Str.fields c b.
Proof.
  unfold Str.no_char. induction a as [|x a IH]; cbn [Str.forallb append Str.fields].
  - intros _. now rewrite Ascii.eqb_refl.
  - intros H. apply andb_true_iff in H as [Hx Ha].
    destruct (Ascii.eqb x c); [discriminate|]. now rewrite (IH Ha).
Qed.

Lemma cut_app (c : ascii) (a b : string) :
  Str.no_char c a = true -> Str.cut c (a ++ String c b) = (a, Some b).
Proof.
  unfold Str.no_char. induction a as [|x a IH]; cbn [Str.forallb append Str.cut].
  - intros _. now rewrite Ascii.eqb_refl.
  - intros H. apply andb_true_iff in H as [Hx Ha].
    destruct (Ascii.eqb x c); [discriminate|]. now rewrite (IH Ha).
Qed.

Lemma written_not_separator (c : ascii) :
  Url.written c = true ->
  negb (Ascii.eqb c "&") = true /\ negb (Ascii.eqb c "=") = true.
Proof. destruct c as [[] [] [] [] [] [] [] []]; try discriminate; now split. Qed.

Lemma encode_written_all (s : string) :
  Str.forallb Url.written (Url.encode s) = true.
Proof.
  induction s as [|c s IH]; [reflexivity|].
  cbn [Url.encode]. now rewrite forallb_app, encode_char_written, IH.
Qed.

Lemma encode_no_separator (s : string) :
  Str.no_char "&" (Url.encode s) = true /\ Str.no_char "=" (Url.encode s) = true.
Proof.
  split; refine (forallb_impl _ _ _ _ (encode_written_all s));
    intros c Hc; now destruct (written_not_separator c Hc).
Qed.

Lemma decode_encode_all (s : string) : Url.decode (Url.encode s) = Some s.
Proof.
  induction s as [|c s IH]; [reflexivity|].
  cbn [Url.encode]. now rewrite decode_encode_char, IH.
Qed.

Lemma parse_field_encoded (k v : string) :
  Url.parse_field (Url.encode k ++ "=" ++ Url.encode v) = Some (k, v).
Proof.
  unfold Url.parse_field.
  change (Url.encode k ++ "=" ++ Url.encode v)
    with (Url.encode k ++ String "=" (Url.encode v)).
  rewrite (cut_app "=" _ _ (proj2 (encode_no_separator k))).
  cbn [fst snd]. now rewrite !decode_encode_all.
Qed.

Lemma field_not_empty (k v : string) :
  Str.is_empty (Url.encode k ++ "=" ++ Url.encode v) = false.
Proof. destruct (Url.encode k); reflexivity. Qed.

Lemma field_no_ampersand (k v : string) :
  Str.no_char "&" (Url.encode k ++ "=" ++ Url.encode v) = true.
Proof.
  unfold Str.no_char. rewrite !forallb_app.
  destruct (encode_no_separator k) as [Hk _], (encode_no_separator v) as [Hv _].
  unfold Str.no_char in Hk, Hv. now rewrite Hk, Hv.
Qed.

(** The serializer writes only letters, digits and the characters
    [*-._+%], and the [=] and [&] it puts itself. *)
Lemma to_string_written :
  forall params : Url.SearchParams,
    Str.forallb (fun c => Url.written c || Ascii.eqb c "=" || Ascii.eqb c "&")
      (Url.to_string params) = true.
Proof.
  assert (W : forall s, Str.forallb
                (fun c => Url.written c || Ascii.eqb c "=" || Ascii.eqb c "&")
                (Url.encode s) = true).
  { intros s. refine (forallb_impl _ _ _ _ (encode_written_all s)).
    intros c ->. reflexivity. }
  induction params as [|[k v] r IH]; [reflexivity|].
  unfold Url.to_string in *. cbn [map String.concat fst snd].
  destruct r as [|p r].
  - cbn [map]. now rewrite !forallb_app, !W.
  - cbn [map] in *. rewrite !forallb_app, !W, IH. reflexivity.
Qed.

(** Reading the query back gives the parameters as they were set. *)
Lemma parse_to_string :
  forall params : Url.SearchParams,
    Url.parse (Url.to_string params) = Some params.
Proof.
  induction params as [|[k v] r IH]; [reflexivity|].
  unfold Url.parse, Url.to_string in *. cbn [map String.concat fst snd].
  destruct r as [|p r].
  - cbn [map]. rewrite (fields_single "&" _ (field_no_ampersand k v)).
    cbn [filter]. rewrite field_not_empty. cbn [negb map Url.all_of].
    now rewrite parse_field_encoded.
  - cbn [map] in *.
    change (?a ++ "&" ++ ?b) with (a ++ String "&" b).
    rewrite (fields_app "&" _ _ (field_no_ampersand k v)).
    cbn [filter]. rewrite field_not_empty. cbn [negb map Url.all_of].
    now rewrite parse_field_encoded, IH.
Qed.

(** Every redirect of either version, in one shape. *)
Lemma redirect_shape v parse env uuid req loc :
  Http.location_of (Both.handler v parse env uuid req) = Some loc ->
  exists sp,
    Both.searchParams v parse env req = Some sp
    /\ Js.truthy_string (Url.get "code" sp) = false
    /\ loc = "https://github.com/login/oauth/authorize?"
               ++ Url.to_string
                    (Both.authorize_params v env uuid (Url.get "state" sp)).
Proof.
  destruct v; cbn [Both.handler Both.searchParams Both.authorize_params].
  - unfold ApiAuth.handler.
    destruct (parse (Http.url req) (ApiAuth.ORIGIN env)) as [sp|]; [|discriminate].
    destruct (Js.truthy_string (Url.get "code" sp)) eqn:Hc; [discriminate|].
    cbn. intros [= <-]. now exists sp.
  - unfold Part000.handler.
    destruct (parse (Http.url req) (Part000.baseUrl req)) as [sp|]; [|discriminate].
    destruct (Js.truthy_string (Url.get "code" sp)) eqn:Hc; [discriminate|].
    cbn. intros [= <-]. now exists sp.
Qed.

Lemma authorize_params_fixed v env uuid state :
  Url.get "redirect_uri" (Both.authorize_params v env uuid state)
  = Some (Both.callback v env)
  /\ Url.get "scope" (Both.authorize_params v env uuid state) = Some "repo,user"
  /\ Url.get "client_id" (Both.authorize_params v env uuid state)
     = Some (Js.template_string (Process.GITHUB_CLIENT_ID env)).
Proof.
  destruct v; cbn [Both.authorize_params Both.callback].
  - repeat split.
  - unfold Part000.authorize_params.
    destruct (Js.truthy_string state); repeat split.
Qed.

(** X1: every redirect of either version goes to the authorization
    endpoint of the provider with a query that reads back as parameters
    among which [redirect_uri] is the callback URL of that version, byte for
    byte, [scope] is [repo,user] and [client_id] is the configured one. *)
Theorem redirect_parameters :
  forall v parse env uuid req loc,
    Http.location_of (Both.handler v parse env uuid req) = Some loc ->
    exists query params,
      loc = "https://github.com/login/oauth/authorize?" ++ query
      /\ Url.parse query = Some params
      /\ Url.get "redirect_uri" params = Some (Both.callback v env)
      /\ Url.get "scope" params = Some "repo,user"
      /\ Url.get "client_id" params
         = Some (Js.template_string (Process.GITHUB_CLIENT_ID env)).
Proof.
  intros v parse env uuid req loc H.
  destruct (redirect_shape _ _ _ _ _ _ H) as (sp & _ & _ & ->).
  eexists. eexists. split; [reflexivity|]. split; [apply parse_to_string|].
  apply authorize_params_fixed.
Qed.

Lemma redirect_parameters_witness :
  Http.location_of
    (Both.handler Both.part_000 Sample.searchParams Sample.preview_env Sample.uuid
       (Sample.request "/api/auth?state=a%20b"))
  = Some ("https://github.com/login/oauth/authorize?client_id=ID&scope=repo%2Cuser"
            ++ "&redirect_uri=https%3A%2F%2Frenso-foundation.vercel.app%2Fapi%2Fauth"
            ++ "&state=a+b")
  /\ exists query params,
      "https://github.com/login/oauth/authorize?client_id=ID&scope=repo%2Cuser"
        ++ "&redirect_uri=https%3A%2F%2Frenso-foundation.vercel.app%2Fapi%2Fauth"
        ++ "&state=a+b"
      = "https://github.com/login/oauth/authorize?" ++ query
      /\ Url.parse query = Some params
      /\ Url.get "redirect_uri" params
         = Some (Both.callback Both.part_000 Sample.preview_env)
      /\ Url.get "scope" params = Some "repo,user"
      /\ Url.get "client_id" params
         = Some (Js.template_string (Process.GITHUB_CLIENT_ID Sample.preview_env)).
Proof.
  split; [reflexivity|].
  apply (redirect_parameters Both.part_000 Sample.searchParams Sample.preview_env
           Sample.uuid (Sample.request "/api/auth?state=a%20b")).
  reflexivity.
Defined.

(** X2: the target of a redirect is written in letters, digits and the
    characters [*-._+%=&] after the fixed address of the endpoint: no state
    or configuration puts a space, a quote, a line break or a [#] into the
    [Location] header. *)
Theorem redirect_target_alphabet :
  forall v parse env uuid req loc,
    Http.location_of (Both.handler v parse env uuid req) = Some loc ->
    exists query,
      loc = "https://github.com/login/oauth/authorize?" ++ query
      /\ Str.forallb (fun c => Url.written c || Ascii.eqb c "=" || Ascii.eqb c "&")
           query = true.
Proof.
  intros v parse env uuid req loc H.
  destruct (redirect_shape _ _ _ _ _ _ H) as (sp & _ & _ & ->).
  eexists. split; [reflexivity | apply to_string_written].
Qed.

Lemma redirect_target_alphabet_witness :
  exists query,
    "https://github.com/login/oauth/authorize?client_id=ID&scope=repo%2Cuser"
      ++ "&state=x%0D%0ASet-Cookie%3A+a"
      ++ "&redirect_uri=https%3A%2F%2Frenso-foundation.vercel.app%2Fapi%2Fauth"
    = "https://github.com/login/oauth/authorize?" ++ query
    /\ Str.forallb (fun c => Url.written c || Ascii.eqb c "=" || Ascii.eqb c "&")
         query = true.
Proof.
  apply (redirect_target_alphabet Both.api_auth
           (fun _ _ => Some [("state",
                              "x" ++ String (ascii_of_nat 13)
                                       (String (ascii_of_nat 10) "Set-Cookie: a"))])
           Sample.env Sample.uuid Sample.first).
  reflexivity.
Defined.

(** X3: the state of the redirect.  A state that the caller gave and that
    is not empty is sent on as it is, in either version: the query reads
    back with that very state.  An empty state counts as none: then
    [api/auth.js] sends the fresh UUID and [part_000] sends no state. *)
Theorem redirect_state :
  forall v parse env uuid req sp,
    Both.searchParams v parse env req = Some sp ->
    Js.truthy_string (Url.get "code" sp) = false ->
    exists query params,
      Http.location_of (Both.handler v parse env uuid req)
      = Some ("https://github.com/login/oauth/authorize?" ++ query)
      /\ Url.parse query = Some params
      /\ Url.get "state" params
         = if Js.truthy_string (Url.get "state" sp) then Url.get "state" sp
           else match v with
                | Both.api_auth => Some uuid
                | Both.part_000 => None
                end.
Proof.
  intros v parse env uuid req sp Hp Hc.
  exists (Url.to_string (Both.authorize_params v env uuid (Url.get "state" sp))).
  eexists. split; [|split; [apply parse_to_string|]].
  - destruct v; cbn [Both.handler Both.searchParams Both.authorize_params] in *.
    + unfold ApiAuth.handler. now rewrite Hp, Hc.
    + unfold Part000.handler. now rewrite Hp, Hc.
  - destruct v; cbn [Both.authorize_params].
    + unfold ApiAuth.authorize_params. cbn.
      destruct (Url.get "state" sp) as [[|c s]|]; reflexivity.
    + unfold Part000.authorize_params.
      destruct (Url.get "state" sp) as [[|c s]|]; reflexivity.
Qed.

Lemma redirect_state_witness :
  Both.searchParams Both.api_auth Sample.searchParams Sample.env
    (Sample.request "/api/auth?state=&x=1")
  = Some [("state", EmptyString); ("x", "1")]
  /\ Js.truthy_string (Url.get "code" [("state", EmptyString); ("x", "1")]) = false
  /\ exists query params,
      Http.location_of
        (Both.handler Both.api_auth Sample.searchParams Sample.env Sample.uuid
           (Sample.request "/api/auth?state=&x=1"))
      = Some ("https://github.com/login/oauth/authorize?" ++ query)
      /\ Url.parse query = Some params
      /\ Url.get "state" params
         = if Js.truthy_string (Url.get "state" [("state", EmptyString); ("x", "1")])
           then Url.get "state" [("state", EmptyString); ("x", "1")]
           else Some Sample.uuid.
Proof.
  split; [reflexivity|]. split; [reflexivity|].
  apply (redirect_state Both.api_auth Sample.searchParams Sample.env Sample.uuid
           (Sample.request "/api/auth?state=&x=1")
           [("state", EmptyString); ("x", "1")]);
    reflexivity.
Defined.

(** ** The answers of the handler *)

Lemma answer_cases v result :
  exists r log,
    Both.answer v result = Http.Sent r log
    /\ ((Http.status_code r = 200 \/ Http.status_code r = 401) /\ log = []
        \/ Http.status_code r = 500 /\ exists err, log = [("OAuth error:", err)]).
Proof.
  destruct v; cbn [Both.answer].
  - destruct (ApiAuth.classify result); do 2 eexists;
      (split; [reflexivity|]); [left | left | right]; eauto.
  - destruct (Part000.classify result); do 2 eexists;
      (split; [reflexivity|]); [left | left | right]; eauto.
Qed.

(** X4: how an invocation ends.  An exception leaves the handler only
    when the URL of the request cannot be parsed.  Otherwise a response is
    sent: 302 with an empty body exactly when no exchange is made, else
    200, 401 or 500; and a line is logged exactly with the 500. *)
Theorem handler_outcomes :
  forall v parse env uuid req result,
    match Http.complete (Both.handler v parse env uuid req) result with
    | Http.Threw _ => Both.searchParams v parse env req = None
    | Http.Sent r log =>
        (Http.awaits (Both.handler v parse env uuid req) = false
         /\ Http.status_code r = 302 /\ Http.body r = EmptyString /\ log = [])
        \/ (Http.awaits (Both.handler v parse env uuid req) = true
            /\ (Http.status_code r = 200 \/ Http.status_code r = 401) /\ log = [])
        \/ (Http.awaits (Both.handler v parse env uuid req) = true
            /\ Http.status_code r = 500
            /\ exists err, log = [("OAuth error:", err)])
    end.
Proof.
  intros v parse env uuid req result.
  destruct (Http.awaits (Both.handler v parse env uuid req)) eqn:Hw.
  - rewrite (callback_complete _ _ _ _ _ result Hw).
    destruct (answer_cases v result) as (r & log & -> & [H|H]).
    + right; left. now split.
    + right; right. now split.
  - destruct v; cbn [Both.handler Both.searchParams] in *.
    + unfold ApiAuth.handler in *.
      destruct (parse (Http.url req) (ApiAuth.ORIGIN env)) as [sp|]; [|reflexivity].
      destruct (negb (Js.truthy_string (Url.get "code" sp))); [|discriminate].
      left. now repeat split.
    + unfold Part000.handler in *.
      destruct (parse (Http.url req) (Part000.baseUrl req)) as [sp|]; [|reflexivity].
      destruct (negb (Js.truthy_string (Url.get "code" sp))); [|discriminate].
      left. now repeat split.
Qed.


(** X6: on the callback path the response is a function of the result of
    the exchange alone: two requests with a code, to processes of whatever
    configuration, get the same response for the same result. *)
Theorem callback_response_from_result_alone :
  forall v parse1 parse2 env1 env2 uuid1 uuid2 req1 req2 result,
    Http.awaits (Both.handler v parse1 env1 uuid1 req1) = true ->
    Http.awaits (Both.handler v parse2 env2 uuid2 req2) = true ->
    Http.complete (Both.handler v parse1 env1 uuid1 req1) result
    = Http.complete (Both.handler v parse2 env2 uuid2 req2) result.
Proof.
  intros v parse1 parse2 env1 env2 uuid1 uuid2 req1 req2 result H1 H2.
  now rewrite (callback_complete _ _ _ _ _ result H1),
              (callback_complete _ _ _ _ _ result H2).
Qed.

Lemma callback_response_from_result_alone_witness :
  Http.awaits (Both.handler Both.api_auth Sample.searchParams Sample.env
                 Sample.uuid Sample.callback) = true
  /\ Http.awaits (Both.handler Both.api_auth Sample.searchParams Sample.preview_env
                    "another" (Sample.request "/api/auth?code=zzz&state=1")) = true
  /\ Http.complete
       (Both.handler Both.api_auth Sample.searchParams Sample.env
          Sample.uuid Sample.callback)
       (Http.Parsed Sample.expired_answer)
     = Http.complete
         (Both.handler Both.api_auth Sample.searchParams Sample.preview_env
            "another" (Sample.request "/api/auth?code=zzz&state=1"))
         (Http.Parsed Sample.expired_answer).
Proof.
  split; [reflexivity|]. split; [reflexivity|].
  apply (callback_response_from_result_alone Both.api_auth); reflexivity.
Defined.

(** X7: the one call of the handler.  Whatever the request and the
    configuration, the call goes to the token endpoint of the provider, by
    POST, with JSON announced and accepted, and its body carries the code of
    the request as a JSON string. *)
Theorem token_call_fixed :
  forall v parse env uuid req call,
    Http.call_of (Both.handler v parse env uuid req) = Some call ->
    Http.fetch_url call = "https://github.com/login/oauth/access_token"
    /\ Http.fetch_method call = "POST"
    /\ Http.fetch_headers call
       = [("Content-Type", "application/json"); ("Accept", "application/json")]
    /\ exists sp code,
         Both.searchParams v parse env req = Some sp
         /\ Url.get "code" sp = Some code
         /\ Str.includes (Js.quote code) (Http.fetch_body call) = true.
Proof.
  intros v parse env uuid req call H.
  assert (Hw : Http.awaits (Both.handler v parse env uuid req) = true).
  { destruct (Both.handler v parse env uuid req); [discriminate | reflexivity]. }
  destruct v; cbn [Both.handler Both.searchParams] in *.
  - destruct (api_handler_awaits _ _ _ _ Hw) as (sp & code & Hp & Hc & _ & E).
    rewrite E in H. injection H as <-.
    repeat split. exists sp, code. split; [exact Hp|]. split; [exact Hc|].
    unfold ApiAuth.token_request, ApiAuth.GITHUB_CLIENT_ID,
      ApiAuth.GITHUB_CLIENT_SECRET. cbn [Http.fetch_body].
    destruct (Process.GITHUB_CLIENT_ID env), (Process.GITHUB_CLIENT_SECRET env);
      cbv [Js.stringify Js.object Js.defined Js.str option_map map String.concat
             fst snd];
      rewrite ?append_assoc; find_in_appends.
  - destruct (part_handler_awaits _ _ _ Hw) as (sp & code & Hp & Hc & _ & E).
    rewrite E in H. injection H as <-.
    repeat split. exists sp, code. split; [exact Hp|]. split; [exact Hc|].
    unfold Part000.token_request, Part000.GITHUB_CLIENT_ID,
      Part000.GITHUB_CLIENT_SECRET. cbn [Http.fetch_body].
    destruct (Process.GITHUB_CLIENT_ID env), (Process.GITHUB_CLIENT_SECRET env);
      cbv [Js.stringify Js.object Js.defined Js.str option_map map String.concat
             fst snd];
      rewrite ?append_assoc; find_in_appends.
Qed.

Lemma token_call_fixed_witness :
  exists sp code,
    Both.searchParams Both.part_000 Sample.searchParams Sample.env Sample.callback
    = Some sp
    /\ Url.get "code" sp = Some code
    /\ Str.includes (Js.quote code)
         (Js.stringify
            (Js.JObj [("client_id", Js.JStr "ID");
                      ("client_secret", Js.JStr "SECRET");
                      ("code", Js.JStr "abc123");
                      ("redirect_uri",
                       Js.JStr "https://renso-foundation.vercel.app/api/auth")]))
       = true.
Proof.
  apply (token_call_fixed Both.part_000 Sample.searchParams Sample.env Sample.uuid
           Sample.callback
           (Part000.token_request Sample.env "abc123")).
  reflexivity.
Defined.

(** ** The pages at their edges *)



(** X9: a success page opened without an opener ([window.opener] is
    [null]) posts nothing, whatever messages arrive: for a token that is a
    string with no [<] and, in [api/auth.js], no apostrophe, the script runs
    as written, and every call on the missing opener throws, so the token is
    not sent anywhere. *)
Theorem no_opener_no_message :
  forall v tokenData error tok events,
    Js.get tokenData "error" = inr error ->
    Js.truthy error = false ->
    Js.get tokenData "access_token" = inr (Some (Js.JStr tok)) ->
    Both.fits v tok = true ->
    exists s,
      Both.script v false (Http.Parsed tokenData) = Some s
      /\ existsb Popup.posts (Popup.run s events) = false.
Proof.
  intros v tokenData error tok events He Ht Ha Hf.
  rewrite (token_script v false _ _ _ He Ht Ha Hf).
  eexists. split; [reflexivity|].
  unfold Contract.handshake.
  rewrite run_uncaught_listener by now destruct v.
  rewrite existsb_app, no_post_in_uncaught. now destruct v.
Qed.

Lemma no_opener_no_message_witness :
  Js.get Sample.token_answer "error" = inr None
  /\ Js.truthy None = false
  /\ Js.get Sample.token_answer "access_token" = inr (Some (Js.JStr "tok_xyz"))
  /\ Both.fits Both.api_auth "tok_xyz" = true
  /\ exists s,
       Both.script Both.api_auth false (Http.Parsed Sample.token_answer) = Some s
       /\ existsb Popup.posts
            (Popup.run s [Sample.opener_event; Sample.other_event])
          = false.
Proof.
  do 4 (split; [reflexivity|]).
  apply (no_opener_no_message Both.api_auth Sample.token_answer None "tok_xyz"
           [Sample.opener_event; Sample.other_event]);
    reflexivity.
Defined.

(** X10: where the two versions differ on the token.  For a token with
    no apostrophe and no [<], [api/auth.js] posts the token as it is between
    the quotes of the payload: the escapes of [JSON.stringify] are undone by
    the string literal that holds its output.  [part_000] posts the token
    with its JSON escapes.  The two messages are the same exactly for the
    tokens that need no escape. *)
Theorem token_escaping_by_version :
  forall tok,
    Str.no_char "'" tok = true ->
    Popup.inert tok = true ->
    ApiAuth.script true (ApiAuth.Success (Some (Js.JStr tok)))
    = Some (Contract.success_script true tok)
    /\ Part000.script true (Part000.Success (Some (Js.JStr tok)))
       = Some (Contract.success_script true (Js.escape tok)).
Proof.
  intros tok Hq Hi. split.
  - cbn [ApiAuth.script].
    assert (I : Popup.inert (ApiAuth.success_literal (Some (Js.JStr tok))) = true).
    { pose proof (api_success_literal_form tok) as E.
      assert (J : Popup.inert
                    (Contract.success_head ++ Js.escape tok ++ Contract.success_tail)
                  = true).
      { now rewrite !inert_app, (inert_escape _ Hi). }
      rewrite <- E, inert_app in J. now apply andb_true_iff in J as [_ J]. }
    rewrite I, api_success_literal_form.
    rewrite (literal_value_app "'" Contract.success_head _ eq_refl).
    rewrite (literal_escape _ _ Hq).
    rewrite (literal_value_raw "'" Contract.success_tail eq_refl).
    reflexivity.
  - cbn [Part000.script].
    assert (I : Popup.inert (Part000.token_literal (Some (Js.JStr tok))) = true).
    { unfold Part000.token_literal. cbn. unfold Js.quote.
      now rewrite !inert_app, (inert_escape _ Hi). }
    rewrite I. unfold Contract.success_script.
    change (Contract.success_message (Js.escape tok))
      with (Contract.success_head ++ Js.escape tok ++ Contract.success_tail).
    rewrite <- (success_json_form tok). reflexivity.
Qed.

Lemma token_escaping_by_version_witness :
  Str.no_char "'" ("a\b" ++ Str.dq) = true
  /\ Popup.inert ("a\b" ++ Str.dq) = true
  /\ ApiAuth.script true (ApiAuth.Success (Some (Js.JStr ("a\b" ++ Str.dq))))
     = Some (Contract.success_script true ("a\b" ++ Str.dq))
  /\ Part000.script true (Part000.Success (Some (Js.JStr ("a\b" ++ Str.dq))))
     = Some (Contract.success_script true (Js.escape ("a\b" ++ Str.dq))).
Proof.
  split; [reflexivity|]. split; [reflexivity|].
  apply (token_escaping_by_version ("a\b" ++ Str.dq)); reflexivity.
Defined.

(** X11: a process with no [GITHUB_CLIENT_ID] still redirects, and sends
    the text [undefined] as the client id: the missing configuration is not
    noticed by either version. *)
Theorem unset_client_id_sent_as_text :
  forall v parse env uuid req loc,
    Process.GITHUB_CLIENT_ID env = None ->
    Http.location_of (Both.handler v parse env uuid req) = Some loc ->
    prefix "https://github.com/login/oauth/authorize?client_id=undefined&scope=repo%2Cuser&"
      loc = true.
Proof.
  intros v parse env uuid req loc Hid H.
  destruct (redirect_shape _ _ _ _ _ _ H) as (sp & _ & _ & ->).
  destruct v; cbn [Both.authorize_params].
  - unfold ApiAuth.authorize_params, ApiAuth.GITHUB_CLIENT_ID. rewrite Hid.
    reflexivity.
  - unfold Part000.authorize_params, Part000.GITHUB_CLIENT_ID. rewrite Hid.
    destruct (Js.truthy_string (Url.get "state" sp)); reflexivity.
Qed.

Lemma unset_client_id_sent_as_text_witness :
  Process.GITHUB_CLIENT_ID (Process.mkEnv None None None None) = None
  /\ prefix "https://github.com/login/oauth/authorize?client_id=undefined&scope=repo%2Cuser&"
       ("https://github.com/login/oauth/authorize?client_id=undefined&scope=repo%2Cuser"
          ++ "&redirect_uri=https%3A%2F%2Frenso-foundation.vercel.app%2Fapi%2Fauth")
     = true.
Proof.
  split; [reflexivity|].
  apply (unset_client_id_sent_as_text Both.part_000 Sample.searchParams
           (Process.mkEnv None None None None) Sample.uuid Sample.first);
    reflexivity.
Defined.

(* ================================================================= *)
(** ** [esc] *)

Lemma replace_all_app (c : ascii) (new a b : string) :
  Build.replace_all c new (a ++ b)
  = Build.replace_all c new a ++ Build.replace_all c new b.
Proof.
  induction a as [|x a IH]; [reflexivity|].
  cbn [append Build.replace_all]. now rewrite IH, append_assoc.
Qed.

(** The four replacements in a row come to one pass over the text: the
    [&] goes first, so the references written later are not touched. *)
Lemma esc_cons (c : ascii) (s : string) :
  Build.esc (Some (Js.JStr (String c s)))
  = Build.reference c ++ Build.esc (Some (Js.JStr s)).
Proof.
  unfold Build.esc. cbn [Build.text_of Js.to_string Build.replace_all].
  rewrite !replace_all_app.
  destruct c as [[] [] [] [] [] [] [] []]; reflexivity.
Qed.

Lemma esc_of_text (str : Js.value) :
  Build.esc str = Build.esc (Some (Js.JStr (Build.text_of str))).
Proof. reflexivity. Qed.

Lemma reference_markup_free (c : ascii) :
  Str.forallb (fun x => negb (Str.one_of ("<>" ++ Str.dq) x)) (Build.reference c)
  = true.
Proof. destruct c as [[] [] [] [] [] [] [] []]; reflexivity. Qed.

(** X12: what [esc] returns has no [<], no [>] and no double quote,
    whatever it is given: a string, a number, [null], or nothing. *)
Theorem esc_markup_free :
  forall str : Js.value,
    Str.forallb (fun x => negb (Str.one_of ("<>" ++ Str.dq) x)) (Build.esc str)
    = true.
Proof.
  intros str. rewrite esc_of_text.
  induction (Build.text_of str) as [|c s IH]; [reflexivity|].
  now rewrite esc_cons, forallb_app, reference_markup_free, IH.
Qed.

Lemma unesc_reference (c : ascii) (r : string) :
  Build.unesc (Build.reference c ++ r) = String c (Build.unesc r).
Proof. destruct c as [[] [] [] [] [] [] [] []]; reflexivity. Qed.

(** X13: resolving the references gives back the text that [esc] was
    given, byte for byte: the page shows what the data says, also when the
    data holds something that reads like a reference. *)
Theorem unesc_esc :
  forall str : Js.value, Build.unesc (Build.esc str) = Build.text_of str.
Proof.
  intros str. rewrite esc_of_text.
  induction (Build.text_of str) as [|c s IH]; [reflexivity|].
  now rewrite esc_cons, unesc_reference, IH.
Qed.

Lemma length_app (a b : string) :
  String.length (a ++ b) = String.length a + String.length b.
Proof. induction a as [|x a IH]; cbn; [reflexivity | now rewrite IH]. Qed.

Lemma reference_length (c : ascii) :
  (Build.special c = false /\ Build.reference c = String c EmptyString)
  \/ (Build.special c = true /\ 1 < String.length (Build.reference c)).
Proof.
  destruct c as [[] [] [] [] [] [] [] []];
    first [left; split; reflexivity | right; split; [reflexivity | cbn; lia]].
Qed.

Lemma esc_length (s : string) :
  String.length s <= String.length (Build.esc (Some (Js.JStr s)))
  /\ (String.length (Build.esc (Some (Js.JStr s))) = String.length s ->
      Str.forallb (fun c => negb (Build.special c)) s = true).
Proof.
  induction s as [|c s [IH1 IH2]]; [split; [cbn; lia | reflexivity]|].
  rewrite esc_cons, length_app. cbn [String.length Str.forallb].
  destruct (reference_length c) as [[Hs ->]|[Hs Hl]].
  - cbn [String.length]. split; [lia|].
    intros E. rewrite Hs, IH2 by lia. reflexivity.
  - split; lia.
Qed.

(** X14: [esc] returns its text unchanged exactly when the text has none
    of [&], [<], [>] and the double quote.  The apostrophe is not among
    them: [esc] leaves it as it is. *)
Theorem esc_unchanged_iff :
  forall str : Js.value,
    Build.esc str = Build.text_of str
    <-> Str.forallb (fun c => negb (Build.special c)) (Build.text_of str) = true.
Proof.
  intros str. rewrite esc_of_text. generalize (Build.text_of str) as s.
  intros s. split.
  - intros E. apply (proj2 (esc_length s)). now rewrite E.
  - induction s as [|c s IH]; [reflexivity|].
    cbn [Str.forallb]. intros H. apply andb_true_iff in H as [Hc Hs].
    rewrite esc_cons, (IH Hs).
    destruct (reference_length c) as [[_ ->]|[Hsp _]]; [reflexivity|].
    rewrite Hsp in Hc. discriminate.
Qed.

Example esc_keeps_apostrophe :
  Build.esc (Some (Js.JStr "it's")) = "it's".
Proof. reflexivity. Qed.

(* ================================================================= *)
(** ** [parseFrontmatter] *)


Lemma concat_cons (sep x : string) (l : list string) :
  l <> [] -> String.concat sep (x :: l) = x ++ sep ++ String.concat sep l.
Proof. destruct l; [contradiction | reflexivity]. Qed.






Lemma append_nil_r (s : string) : s ++ EmptyString = s.
Proof. induction s as [|c s IH]; [reflexivity | cbn; now rewrite IH]. Qed.

Lemma prefix_nil (s : string) : prefix EmptyString s = true.
Proof. now destruct s. Qed.

Lemma drop_length_app (t x : string) : Build.drop (String.length t) (t ++ x) = x.
Proof. induction t as [|c t IH]; [now destruct x | exact IH]. Qed.

Lemma find_here (a : ascii) (t x : string) :
  Build.find (String a t) (String a t ++ x) = Some (EmptyString, x).
Proof.
  cbn [append Build.find]. 
  change (String a (t ++ x)) with (String a t ++ x).
  now rewrite prefix_app, drop_length_app.
Qed.

Lemma find_none_prefix (t s : string) :
  Build.find t s = None -> prefix t s = false.
Proof.
  destruct s as [|c r]; cbn [Build.find].
  - now destruct (prefix t EmptyString).
  - now destruct (prefix t (String c r)).
Qed.

Lemma find_none_tail (t : string) (c : ascii) (r : string) :
  Build.find t (String c r) = None -> Build.find t r = None.
Proof.
  cbn [Build.find]. destruct (prefix t (String c r)); [discriminate|].
  now destruct (Build.find t r) as [[? ?]|].
Qed.

(** A line break is not where a run of text without one can start to
    match. *)
Lemma find_skip_line (t l x : string) :
  Str.no_char Build.LF l = true ->
  Build.find (String Build.LF t) (l ++ x)
  = option_map (fun p => (l ++ fst p, snd p)) (Build.find (String Build.LF t) x).
Proof.
  unfold Str.no_char. induction l as [|c l IH]; cbn [Str.forallb append].
  - intros _. now destruct (Build.find (String Build.LF t) x) as [[? ?]|].
  - intros H. apply andb_true_iff in H as [Hc Hl].
    cbn [Build.find prefix]. destruct (ascii_dec Build.LF c) as [<-|_].
    + now rewrite Ascii.eqb_refl in Hc.
    + rewrite (IH Hl).
      now destruct (Build.find (String Build.LF t) x) as [[? ?]|].
Qed.

Lemma dashes_not_across_break (l y : string) :
  prefix Build.fence l = false ->
  prefix Build.fence (l ++ String Build.LF y) = false.
Proof.
  unfold Build.fence.
  destruct l as [|a [|b [|c l]]]; cbn [append prefix].
  - reflexivity.
  - intros _. now destruct (ascii_dec "-" a).
  - intros _. now destruct (ascii_dec "-" a), (ascii_dec "-" b).
  - destruct (ascii_dec "-" a), (ascii_dec "-" b), (ascii_dec "-" c);
      try reflexivity.
    now rewrite !prefix_nil.
Qed.

Lemma find_fence_after_break (x : string) :
  Build.find Build.fence (String Build.LF x)
  = option_map (fun p => (String Build.LF (fst p), snd p)) (Build.find Build.fence x).
Proof.
  cbn [Build.find]. 
  replace (prefix Build.fence (String Build.LF x)) with false by reflexivity.
  now destruct (Build.find Build.fence x) as [[? ?]|].
Qed.

(** A line without three dashes has none before the line break after it. *)
Lemma find_fence_in_line (l x : string) :
  Build.find Build.fence l = None ->
  Build.find Build.fence (l ++ String Build.LF x)
  = option_map (fun p => (l ++ fst p, snd p))
      (Build.find Build.fence (String Build.LF x)).
Proof.
  induction l as [|c l IH]; intros H.
  - change (EmptyString ++ String Build.LF x) with (String Build.LF x).
    destruct (Build.find Build.fence (String Build.LF x)) as [[? ?]|];
      reflexivity.
  - pose proof (dashes_not_across_break _ x (find_none_prefix _ _ H)) as P.
    specialize (IH (find_none_tail _ _ _ H)).
    set (F := Build.find Build.fence (String Build.LF x)) in *.
    cbn [append] in *. cbn [Build.find]. rewrite P, IH.
    destruct F as [[? ?]|]; reflexivity.
Qed.

Lemma plain_line_facts (l : string) :
  Build.plain_line l = true ->
  Str.no_char Build.LF l = true
  /\ Build.find Build.fence l = None
  /\ prefix Build.fence l = false.
Proof.
  unfold Build.plain_line. intros H. apply andb_true_iff in H as [Hn Hf].
  destruct (Build.find Build.fence l) eqn:E; [discriminate|].
  repeat split; [exact Hn | now apply find_none_prefix].
Qed.

(** The text of the lines up to the line break that ends the first one. *)
Lemma concat_lines_break (l : string) (lines : list string) (w : string) :
  String.concat (String Build.LF EmptyString) (l :: lines) ++ String Build.LF w
  = l ++ String Build.LF
           (match lines with
            | [] => w
            | _ => String.concat (String Build.LF EmptyString) lines
                     ++ String Build.LF w
            end).
Proof.
  destruct lines as [|l2 ls]; [reflexivity|].
  rewrite concat_cons by discriminate.
  now rewrite !append_assoc.
Qed.

(** The closing fence is the first line break with three dashes after it. *)
Lemma find_block (lines : list string) (z : string) :
  forallb Build.plain_line lines = true ->
  Build.find (String Build.LF Build.fence)
    (String.concat (String Build.LF EmptyString) lines
       ++ String Build.LF (Build.fence ++ z))
  = Some (String.concat (String Build.LF EmptyString) lines, z).
Proof.
  induction lines as [|l ls IH]; intros H.
  - exact (find_here Build.LF Build.fence z).
  - cbn [forallb] in H. apply andb_true_iff in H as [Hl Hls].
    destruct (plain_line_facts l Hl) as (Hn & _ & _).
    rewrite concat_lines_break, (find_skip_line _ _ _ Hn).
    destruct ls as [|l2 ls].
    + change (String Build.LF (Build.fence ++ z))
        with (String Build.LF Build.fence ++ z).
      rewrite (find_here Build.LF Build.fence z). cbn [option_map fst snd].
      now rewrite append_nil_r.
    + specialize (IH Hls).
      assert (P : prefix Build.fence
                    (String.concat (String Build.LF EmptyString) (l2 :: ls)
                       ++ String Build.LF (Build.fence ++ z)) = false).
      { rewrite concat_lines_break. apply dashes_not_across_break.
        cbn [forallb] in Hls. apply andb_true_iff in Hls as [Hl2 _].
        now destruct (plain_line_facts l2 Hl2) as (_ & _ & ?). }
      set (rest := String.concat (String Build.LF EmptyString) (l2 :: ls)
                     ++ String Build.LF (Build.fence ++ z)) in *.
      cbn [Build.find prefix].
      destruct (ascii_dec Build.LF Build.LF) as [_|N]; [|now destruct N].
      rewrite P, IH. cbn [option_map fst snd].
      rewrite (concat_cons _ l (l2 :: ls)) by discriminate. reflexivity.
Qed.

Lemma find_fence_here (z : string) :
  Build.find Build.fence (Build.fence ++ z) = Some (EmptyString, z).
Proof. exact (find_here "-" "--" z). Qed.

(** With no three dashes in the lines, the first ones after the opening
    fence are the closing fence. *)
Lemma find_fence_block (lines : list string) (z : string) :
  forallb Build.plain_line lines = true ->
  Build.find Build.fence
    (String.concat (String Build.LF EmptyString) lines
       ++ String Build.LF (Build.fence ++ z))
  = Some (String.concat (String Build.LF EmptyString) lines
            ++ String Build.LF EmptyString, z).
Proof.
  induction lines as [|l ls IH]; intros H.
  - cbn [String.concat append].
    now rewrite find_fence_after_break, find_fence_here.
  - cbn [forallb] in H. apply andb_true_iff in H as [Hl Hls].
    destruct (plain_line_facts l Hl) as (_ & Hf & _).
    rewrite concat_lines_break, (find_fence_in_line _ _ Hf),
      find_fence_after_break.
    destruct ls as [|l2 ls].
    + now rewrite find_fence_here.
    + rewrite (IH Hls). cbn [option_map fst snd].
      rewrite (concat_cons _ l (l2 :: ls)) by discriminate.
      now rewrite !append_assoc.
Qed.

Lemma fields_concat (lines : list string) :
  forallb Build.plain_line lines = true ->
  lines <> [] ->
  Str.fields Build.LF (String.concat (String Build.LF EmptyString) lines) = lines.
Proof.
  induction lines as [|l ls IH]; intros H N; [contradiction|].
  cbn [forallb] in H. apply andb_true_iff in H as [Hl Hls].
  destruct (plain_line_facts l Hl) as (Hn & _ & _).
  destruct ls as [|l2 ls].
  - exact (fields_single _ _ Hn).
  - rewrite concat_cons by discriminate.
    change (l ++ String Build.LF EmptyString ++ ?x) with (l ++ String Build.LF x).
    rewrite (fields_app _ _ _ Hn), IH by (assumption || discriminate).
    reflexivity.
Qed.

Lemma frontmatter_document (lines : list string) (body : string) :
  forallb Build.plain_line lines = true ->
  Build.frontmatter (Build.document lines body)
  = Some (String.concat (String Build.LF EmptyString) lines).
Proof.
  intros H. unfold Build.frontmatter.
  change (Build.document lines body)
    with ((Build.fence ++ String Build.LF EmptyString)
            ++ (String.concat (String Build.LF EmptyString) lines
                  ++ String Build.LF (Build.fence ++ String Build.LF body))).
  rewrite prefix_app.
  change 4 with (String.length (Build.fence ++ String Build.LF EmptyString)).
  now rewrite drop_length_app, (find_block _ _ H).
Qed.

Lemma without_frontmatter_document (lines : list string) (body : string) :
  forallb Build.plain_line lines = true ->
  Build.without_frontmatter (Build.document lines body) = body.
Proof.
  intros H. unfold Build.without_frontmatter.
  change (Build.document lines body)
    with (Build.fence
            ++ String Build.LF
                 (String.concat (String Build.LF EmptyString) lines
                    ++ String Build.LF (Build.fence ++ String Build.LF body))).
  rewrite prefix_app.
  change 3 with (String.length Build.fence).
  rewrite drop_length_app, find_fence_after_break, (find_fence_block _ _ H).
  cbn [option_map fst snd]. now rewrite Ascii.eqb_refl.
Qed.

(** Reading a document: the lines set their names in turn, then the
    body is set. *)
Lemma parse_document (lines : list string) (body : string) :
  forallb Build.plain_line lines = true ->
  Build.parseFrontmatter (Build.document lines body)
  = Build.assign "_body" (Build.trim body) (fold_left Build.set_line lines []).
Proof.
  intros H. unfold Build.parseFrontmatter.
  rewrite (frontmatter_document _ _ H), (without_frontmatter_document _ _ H).
  destruct lines as [|l ls]; [reflexivity|].
  now rewrite (fields_concat _ H) by discriminate.
Qed.

Lemma lookup_assign_same (k v : string) (data : Build.Data) :
  String.eqb k "__proto__" = false ->
  Js.lookup k (Build.assign k v data) = Some v.
Proof.
  intros H. unfold Build.assign. rewrite H. cbn [Js.lookup].
  now rewrite String.eqb_refl.
Qed.

Lemma lookup_assign_other (k k' v : string) (data : Build.Data) :
  String.eqb k k' = false ->
  Js.lookup k (Build.assign k' v data) = Js.lookup k data.
Proof.
  intros H. unfold Build.assign.
  destruct (String.eqb k' "__proto__"); [reflexivity|].
  cbn [Js.lookup]. rewrite H. exact (get_without k k' data H).
Qed.

(** Lines that do not set a name leave it as it was. *)
Lemma fold_keeps (k : string) (lines : list string) (data : Build.Data) :
  existsb (Build.sets k) lines = false ->
  Js.lookup k (fold_left Build.set_line lines data) = Js.lookup k data.
Proof.
  revert data. induction lines as [|l ls IH]; intros data H; [reflexivity|].
  cbn [existsb] in H. apply orb_false_iff in H as [Hl Hls].
  cbn [fold_left]. rewrite (IH _ Hls).
  unfold Build.set_line, Build.sets in *.
  destruct (Build.entry l) as [[k' v']|]; [|reflexivity].
  apply lookup_assign_other. now rewrite String.eqb_sym.
Qed.

(** X17: reading a document whose lines have no line break and no three
    dashes in them, a name has the value of the last line that sets it,
    whatever stands before that line. *)
Theorem document_field :
  forall lines1 line lines2 body k v,
    forallb Build.plain_line (lines1 ++ line :: lines2) = true ->
    Build.entry line = Some (k, v) ->
    String.eqb k "__proto__" = false ->
    String.eqb k "_body" = false ->
    existsb (Build.sets k) lines2 = false ->
    Js.lookup k
      (Build.parseFrontmatter (Build.document (lines1 ++ line :: lines2) body))
    = Some v.
Proof.
  intros lines1 line lines2 body k v Hp He Hk Hb Hl.
  rewrite (parse_document _ _ Hp), (lookup_assign_other _ _ _ _ Hb).
  rewrite fold_left_app. cbn [fold_left].
  rewrite (fold_keeps _ _ _ Hl). unfold Build.set_line. rewrite He.
  now apply lookup_assign_same.
Qed.

Lemma document_field_witness :
  forallb Build.plain_line (["title: Spring gala"] ++ "time: 18:30 " :: ["title: Gala"])
  = true
  /\ Build.entry "time: 18:30 " = Some ("time", "18:30")
  /\ String.eqb "time" "__proto__" = false
  /\ String.eqb "time" "_body" = false
  /\ existsb (Build.sets "time") ["title: Gala"] = false
  /\ Js.lookup "time"
       (Build.parseFrontmatter
          (Build.document (["title: Spring gala"] ++ "time: 18:30 " :: ["title: Gala"])
             "Join us."))
     = Some "18:30".
Proof.
  repeat (split; [reflexivity|]).
  apply (document_field ["title: Spring gala"] "time: 18:30 " ["title: Gala"]
           "Join us." "time" "18:30");
    reflexivity.
Defined.

(** X18: the body of such a document is what follows the closing fence,
    trimmed, also when a line of the frontmatter sets [_body]: the body is
    assigned last. *)
Theorem document_body :
  forall lines body,
    forallb Build.plain_line lines = true ->
    Js.lookup "_body" (Build.parseFrontmatter (Build.document lines body))
    = Some (Build.trim body).
Proof.
  intros lines body Hp. rewrite (parse_document _ _ Hp).
  now apply lookup_assign_same.
Qed.

Lemma document_body_witness :
  forallb Build.plain_line ["title: Gala"; "_body: hidden"] = true
  /\ Js.lookup "_body"
       (Build.parseFrontmatter
          (Build.document ["title: Gala"; "_body: hidden"]
             (String Build.LF ("Join us." ++ String Build.LF EmptyString))))
     = Some (Build.trim (String Build.LF ("Join us." ++ String Build.LF EmptyString))).
Proof.
  split; [reflexivity|].
  apply (document_body ["title: Gala"; "_body: hidden"]).
  reflexivity.
Defined.

(** X19: a name that no line sets, and that is not one of the names
    every object inherits, is not in the result: reading it gives
    [undefined], which [esc] writes as the empty string. *)
Theorem document_missing_field :
  forall lines body k,
    forallb Build.plain_line lines = true ->
    String.eqb k "_body" = false ->
    Build.inherited k = false ->
    existsb (Build.sets k) lines = false ->
    Build.read (Build.parseFrontmatter (Build.document lines body)) k
    = Some Js.undefined
    /\ option_map Build.esc
         (Build.read (Build.parseFrontmatter (Build.document lines body)) k)
       = Some EmptyString.
Proof.
  intros lines body k Hp Hb Hi Hl. unfold Build.read.
  rewrite (parse_document _ _ Hp), (lookup_assign_other _ _ _ _ Hb),
    (fold_keeps _ _ _ Hl).
  cbn [Js.lookup]. rewrite Hi. split; reflexivity.
Qed.

Lemma document_missing_field_witness :
  forallb Build.plain_line ["title: Gala"; "no colon here"] = true
  /\ String.eqb "location" "_body" = false
  /\ Build.inherited "location" = false
  /\ existsb (Build.sets "location") ["title: Gala"; "no colon here"] = false
  /\ Build.read
       (Build.parseFrontmatter
          (Build.document ["title: Gala"; "no colon here"] "Join us."))
       "location"
     = Some Js.undefined
  /\ option_map Build.esc
       (Build.read
          (Build.parseFrontmatter
             (Build.document ["title: Gala"; "no colon here"] "Join us."))
          "location")
     = Some EmptyString.
Proof.
  do 4 (split; [reflexivity|]).
  apply (document_missing_field ["title: Gala"; "no colon here"] "Join us."
           "location");
    reflexivity.
Defined.





(** X20: the result is the empty object, with no field and no body,
    exactly when the text does not start with three dashes and a line break
    or no later line break has three dashes after it.  So a file with
    Windows line breaks, or with a blank line before the fence, gives
    nothing. *)
Theorem no_fence_no_data :
  forall content,
    Build.parseFrontmatter content = []
    <-> prefix (Build.fence ++ String Build.LF EmptyString) content = false
        \/ Build.find (String Build.LF Build.fence) (Build.drop 4 content) = None.
Proof.
  intros content. unfold Build.parseFrontmatter, Build.frontmatter.
  destruct (prefix (Build.fence ++ String Build.LF EmptyString) content).
  - destruct (Build.find (String Build.LF Build.fence) (Build.drop 4 content))
      as [[block rest]|]; cbn [option_map fst].
    + split; [discriminate | intros [H|H]; discriminate].
    + split; [now right | reflexivity].
  - split; [now left | reflexivity].
Qed.

Example windows_line_breaks_give_nothing :
  Build.parseFrontmatter
    ("---" ++ String (ascii_of_nat 13) (String Build.LF "title: Gala")
       ++ String (ascii_of_nat 13) (String Build.LF "---")
       ++ String (ascii_of_nat 13) (String Build.LF "Join us."))
  = [].
Proof. reflexivity. Qed.

(** Three dashes inside a line end the frontmatter for the body, not for
    the fields: the rest of the frontmatter shows up in the body. *)
Example dashes_in_a_line_leak_into_body :
  Build.parseFrontmatter
    (Build.document ["title: a --- b"; "date: 2024-05-01"] "Join us.")
  = [("_body",
      "b" ++ String Build.LF
               ("date: 2024-05-01" ++ String Build.LF ("---" ++ String Build.LF "Join us.")));
     ("date", "2024-05-01");
     ("title", "a --- b")].
Proof. reflexivity. Qed.

(* ================================================================= *)
(** ** [readDataFiles] *)

Lemma all_of_length {A : Type} (l : list (option A)) (xs : list A) :
  Url.all_of l = Some xs -> List.length xs = List.length l.
Proof.
  revert xs. induction l as [|[x|] l IH]; intros xs; cbn [Url.all_of].
  - now intros [= <-].
  - destruct (Url.all_of l) as [ys|]; [|discriminate].
    intros [= <-]. cbn. now rewrite (IH ys eq_refl).
  - discriminate.
Qed.

Lemma all_of_none {A : Type} (l1 l2 : list (option A)) :
  Url.all_of (l1 ++ None :: l2) = None.
Proof.
  induction l1 as [|[x|] l1 IH]; cbn [app Url.all_of]; [reflexivity| |reflexivity].
  now rewrite IH.
Qed.

(** X21: an entry of the folder whose name ends in neither [.json] nor
    [.md] does not count: with it or without it, whatever it holds, the
    result is the same. *)
Theorem other_files_ignored :
  forall JSON_parse files1 name content files2,
    Build.wanted name = false ->
    Build.readDataFiles JSON_parse (Some (files1 ++ (name, content) :: files2)%list)
    = Build.readDataFiles JSON_parse (Some (files1 ++ files2)%list).
Proof.
  intros JSON_parse files1 name content files2 H.
  unfold Build.readDataFiles. rewrite !filter_app. cbn [filter fst].
  now rewrite H.
Qed.

Lemma other_files_ignored_witness :
  Build.wanted "notes.json.bak" = false
  /\ Build.readDataFiles (fun _ => None)
       (Some ([("a.md", Some "x")] ++ ("notes.json.bak", None) :: [("b.md", Some "y")])%list)
     = Build.readDataFiles (fun _ => None)
         (Some ([("a.md", Some "x")] ++ [("b.md", Some "y")])%list).
Proof.
  split; [reflexivity|].
  apply (other_files_ignored (fun _ => None) [("a.md", Some "x")] "notes.json.bak"
           None [("b.md", Some "y")]).
  reflexivity.
Defined.

(** X22: one [.json] file that does not parse makes the whole reading
    throw, whatever the other files are: there is no partial result. *)
Theorem broken_json_stops_reading :
  forall JSON_parse files1 name raw files2,
    Build.endsWith ".json" name = true ->
    JSON_parse raw = None ->
    Build.readDataFiles JSON_parse (Some (files1 ++ (name, Some raw) :: files2)%list)
    = None.
Proof.
  intros JSON_parse files1 name raw files2 Hj Hp.
  unfold Build.readDataFiles. rewrite filter_app. cbn [filter fst].
  unfold Build.wanted. rewrite Hj. cbn [orb]. rewrite map_app. cbn [map].
  unfold Build.read_file at 2. cbn [fst snd]. rewrite Hj, Hp.
  apply all_of_none.
Qed.

Lemma broken_json_stops_reading_witness :
  Build.endsWith ".json" "site.json" = true
  /\ (fun raw : string => if String.eqb raw "{}" then Some (Js.JObj []) else None)
       "{oops" = None
  /\ Build.readDataFiles
       (fun raw => if String.eqb raw "{}" then Some (Js.JObj []) else None)
       (Some ([("a.json", Some "{}")] ++ ("site.json", Some "{oops") :: [])%list)
     = None.
Proof.
  split; [reflexivity|]. split; [reflexivity|].
  apply (broken_json_stops_reading
           (fun raw => if String.eqb raw "{}" then Some (Js.JObj []) else None)
           [("a.json", Some "{}")] "site.json" "{oops" []);
    reflexivity.
Defined.

(** X23: when the reading returns, there is one item for each entry
    whose name ends in [.json] or [.md], and none for the others. *)
Theorem reading_counts_files :
  forall JSON_parse files items,
    Build.readDataFiles JSON_parse (Some files) = Some items ->
    List.length items
    = List.length (filter (fun file => Build.wanted (fst file)) files).
Proof.
  intros JSON_parse files items H. unfold Build.readDataFiles in H.
  rewrite (all_of_length _ _ H). apply length_map.
Qed.

Lemma reading_counts_files_witness :
  Build.readDataFiles (fun _ => None)
    (Some [("a.md", Some "x"); ("README", Some "r"); ("b.md", Some "y")])
  = Some [Build.Markdown []; Build.Markdown []]
  /\ List.length [Build.Markdown []; Build.Markdown []]
     = List.length
         (filter (fun file => Build.wanted (fst file))
            [("a.md", Some "x"); ("README", Some "r"); ("b.md", Some "y")]).
Proof.
  split; [reflexivity|].
  apply (reading_counts_files (fun _ => None)
           [("a.md", Some "x"); ("README", Some "r"); ("b.md", Some "y")]).
  reflexivity.
Defined.
